(** * ECS capacity inventory: classification, recommendation, metrics, report

    A shallow embedding of [ecs_cluster_inventory.py] and the properties of
    its decision logic.  Python [float] is IEEE-754 binary64, modelled by the
    Standard Library's [spec_float] with its comparison [SFcompare]; Python
    [str] is [string]; Python [int] is [Z]; [Optional[T]] is [option T]. *)

From Stdlib Require Import ZArith List String Ascii Bool Lia DecimalString.
From Stdlib Require Import SpecFloat Permutation Sorted.
Import ListNotations.
Local Open Scope string_scope.
Local Open Scope Z_scope.

(** ** Python floats *)

Definition float : Type := spec_float.

Module PyFloat.

Definition prec : Z := 53.
Definition emax : Z := 1024.

(** [float(n)] for an integer [n] (round to nearest even). *)
Definition of_Z (n : Z) : float := binary_normalize prec emax n 0 false.

(** The comparisons [x < y] and [x <= y]; both are [False] on a NaN. *)
Definition lt (x y : float) : bool := SFltb x y.
Definition le (x y : float) : bool := SFleb x y.

Definition is_nan (x : float) : bool :=
  match x with S754_nan => true | _ => false end.

Definition add (x y : float) : float := SFadd prec emax x y.
Definition div (x y : float) : float := SFdiv prec emax x y.
Definition neg (x : float) : float := SFopp x.

End PyFloat.

Infix "<?." := PyFloat.lt (at level 70, no associativity).
Infix "<=?." := PyFloat.le (at level 70, no associativity).

(** ** Default thresholds *)

Definition DEFAULT_CPU_LOW_MAX : float := PyFloat.of_Z 40.
Definition DEFAULT_CPU_MED_MAX : float := PyFloat.of_Z 69.
Definition DEFAULT_MEM_LOW_MAX : float := PyFloat.of_Z 35.
Definition DEFAULT_MEM_MED_MAX : float := PyFloat.of_Z 69.

(** ** Helpers *)

Definition classify (value_pct : option float) (low_max med_max : float)
  : string :=
  match value_pct with
  | None => "no_data"
  | Some v =>
      if v <?. low_max then "low"
      else if v <=?. med_max then "medium"
      else "high"
  end.

Definition msg_running0 : string :=
  "Running=0. Service has no running tasks: review if it can be deactivated/removed or kept on-demand.".
Definition msg_high_cpu : string :=
  "High CPU: possible bottleneck. Consider increasing CPU and/or enabling autoscaling (keep memory).".
Definition msg_high_mem : string :=
  "High memory (OOMKill risk). Consider increasing memory and investigate leak/cache/heap.".
Definition msg_oversized : string :=
  "Low CPU and memory: over-provisioned. Consider downsizing CPU/memory and/or using FARGATE_SPOT.".
Definition msg_idle_cpu : string :=
  "Idle CPU: consider reducing CPU while maintaining memory.".
Definition msg_idle_mem : string :=
  "Idle memory: consider reducing memory (carefully) while maintaining CPU.".
Definition msg_incomplete : string :=
  "Incomplete metrics: validate Container Insights / ECS metrics in CloudWatch and re-evaluate.".
Definition msg_ok : string :=
  "Looks OK: monitor peaks and adjust with historical data (7-14 days).".

(** [x in (a, b)] on strings. *)
Definition in2 (x a b : string) : bool := (x =? a)%string || (x =? b)%string.

Definition recommendation (cpu_level mem_level : string) (running : Z)
  : string :=
  if running =? 0 then msg_running0
  else if (cpu_level =? "high")%string && in2 mem_level "low" "medium"
  then msg_high_cpu
  else if (mem_level =? "high")%string then msg_high_mem
  else if (cpu_level =? "low")%string && (mem_level =? "low")%string
  then msg_oversized
  else if (cpu_level =? "low")%string && in2 mem_level "medium" "high"
  then msg_idle_cpu
  else if in2 cpu_level "medium" "high" && (mem_level =? "low")%string
  then msg_idle_mem
  else if (cpu_level =? "no_data")%string || (mem_level =? "no_data")%string
  then msg_incomplete
  else msg_ok.


(** [str(n)] for an integer. *)
Definition str_int (n : Z) : string := NilZero.string_of_int (Z.to_int n).

(** [s.split(sep)] for a one-character separator; [acc] holds the piece
    read so far.  The empty string splits into one empty piece. *)
Fixpoint split_aux (sep : ascii) (s : string) (acc : string) : list string :=
  match s with
  | EmptyString => [acc]
  | String c rest =>
      if Ascii.eqb c sep then acc :: split_aux sep rest ""
      else split_aux sep rest (acc ++ String c "")
  end.

Definition split (s : string) (sep : ascii) : list string :=
  split_aux sep s "".

(** [sep.join(parts)]. *)
Definition join (sep : string) (parts : list string) : string :=
  String.concat sep parts.

(** [c in s] for a one-character [c]. *)
Fixpoint contains_char (c : ascii) (s : string) : bool :=
  match s with
  | EmptyString => false
  | String d rest => Ascii.eqb c d || contains_char c rest
  end.

Definition startswith (s p : string) : bool := String.prefix p s.

(** [lst[:top]], also for a negative [top]. *)
Definition slice_to {A : Type} (lst : list A) (top : Z) : list A :=
  if 0 <=? top then firstn (Z.to_nat top) lst
  else firstn (Z.to_nat (Z.of_nat (List.length lst) + top)) lst.

(** A stable insertion sort that only uses [<] on the keys, as [list.sort]
    and [sorted] do.  Wherever [<] is a strict weak order on the keys that
    occur, the stable sorted arrangement is unique, so this is the list that
    Python returns.  On float keys with a NaN among them [<] is no such
    order and the list that Python returns depends on the steps of its
    sorting algorithm: [sorted_key_reverse] below does not use this sort
    there. *)
Section Sorting.
Context {A K : Type} (ltk : K -> K -> bool) (key : A -> K).

Fixpoint insert_by (x : A) (l : list A) : list A :=
  match l with
  | [] => [x]
  | y :: l' =>
      if ltk (key y) (key x) then y :: insert_by x l' else x :: y :: l'
  end.

Definition sort_by (l : list A) : list A := fold_right insert_by [] l.

(** [sorted(l, key=key, reverse=True)]: Python reverses the list, sorts it
    stably in ascending order and reverses the result, so that equal keys
    keep their original order. *)
Definition sorted_reverse (l : list A) : list A := rev (sort_by (rev l)).
End Sorting.

Fixpoint chunks_aux {A : Type} (fuel n : nat) (lst : list A) : list (list A) :=
  match fuel with
  | O => []
  | S fuel' =>
      match lst with
      | [] => []
      | _ => firstn n lst :: chunks_aux fuel' n (skipn n lst)
      end
  end.

(** [[lst[i:i + n] for i in range(0, len(lst), n)]], for [n >= 1]. *)
Definition chunks {A : Type} (lst : list A) (n : nat) : list (list A) :=
  chunks_aux (List.length lst) n lst.

Definition arn_to_name (arn : string) : string :=
  if (arn =? "")%string then ""
  else if contains_char "/"%char arn then last (split arn "/"%char) ""
  else arn.


(** ** Python builtins that are taken as given

    Text conversions whose exact behaviour belongs to the interpreter and to
    the [csv] module.  [int_of_str] and [float_of_str] return [None] where
    Python raises [ValueError]. *)
Class PyRuntime : Type := {
  strip : string -> string;                (* s.strip() *)
  int_of_str : string -> option Z;         (* int(s) *)
  float_of_str : string -> option float;   (* float(s) *)
  float_str : float -> string;             (* str(x), the text of "{x}" *)
  float_fmt2 : float -> string;            (* the text of "{x:.2f}" *)
  csv_line : list string -> string;        (* one row as csv.writer emits it *)
  (* for keys with a NaN among them, on which [<] is no order: the positions
     of the input in the order in which sorted(..., reverse=True) lists them *)
  sorted_reverse_nan : list float -> list nat
}.

(** [int(x)] for a float: truncation toward zero; it raises on NaN and on
    the infinities, which is [None] here. *)
Definition int_of_float (x : float) : option Z :=
  match x with
  | S754_zero _ => Some 0
  | S754_finite s m e =>
      let a := if 0 <=? e then Z.pos m * 2 ^ e else Z.pos m / 2 ^ (- e) in
      Some (if s then - a else a)
  | _ => None
  end.

(** ** Exceptions and effects *)

Inductive exn_class : Type :=
| ClientError
| BotoCoreError
| OtherException.

(** A raised exception: its class and the text of [str(e)]. *)
Record exn : Type := Exn { exn_cls : exn_class; exn_text : string }.

Inductive result (A : Type) : Type :=
| Ok (a : A)
| Raise (e : exn).
Arguments Ok {A} a.
Arguments Raise {A} e.

(** What a run has written so far: the pieces of text sent to standard
    output and to standard error, in order ([print] sends one piece), and
    the files it has created, most recent first, each with its lines. *)
Record World : Type := mkWorld {
  stdout : list string;
  stderr : list string;
  files : list (string * list string)
}.

Definition empty_world : World := mkWorld [] [] [].

(** Computations that write to the world and may raise. *)
Definition M (A : Type) : Type := World -> result A * World.

Definition ret {A : Type} (a : A) : M A := fun w => (Ok a, w).

Definition bind {A B : Type} (m : M A) (k : A -> M B) : M B :=
  fun w =>
    match m w with
    | (Ok a, w') => k a w'
    | (Raise e, w') => (Raise e, w')
    end.

Definition raise {A : Type} (e : exn) : M A := fun w => (Raise e, w).

Definition lift {A : Type} (r : result A) : M A := fun w => (r, w).

(** [try: body / except classes: handler]. *)
Definition try_except {A : Type} (body : M A) (catches : exn -> bool)
    (handler : exn -> M A) : M A :=
  fun w =>
    match body w with
    | (Ok a, w') => (Ok a, w')
    | (Raise e, w') => if catches e then handler e w' else (Raise e, w')
    end.

Declare Scope py_scope.
Delimit Scope py_scope with py.
Notation "x <- m ;; k" := (bind m (fun x => k))
  (at level 61, m at next level, right associativity) : py_scope.
Notation "m ;;; k" := (bind m (fun _ => k))
  (at level 61, right associativity) : py_scope.
Local Open Scope py_scope.

Definition print (s : string) : M unit :=
  fun w => (Ok tt, mkWorld (stdout w ++ [s])%list (stderr w) (files w)).

Definition eprint (s : string) : M unit :=
  fun w => (Ok tt, mkWorld (stdout w) (stderr w ++ [s])%list (files w)).

(** The writes to a file that [open(path, "w")] has opened, and the close. *)
Definition write_file (path : string) (lines : list string) : M unit :=
  fun w => (Ok tt, mkWorld (stdout w) (stderr w) ((path, lines) :: files w)).

(** [except Exception]: every class modelled here derives from it. *)
Definition any_exception (e : exn) : bool := true.

(** [except (ClientError, BotoCoreError)]. *)
Definition client_or_botocore (e : exn) : bool :=
  match exn_cls e with
  | ClientError | BotoCoreError => true
  | OtherException => false
  end.

(** A [for] loop whose body may write and raise. *)
Fixpoint for_each {A : Type} (l : list A) (body : A -> M unit) : M unit :=
  match l with
  | [] => ret tt
  | x :: l' => body x ;;; for_each l' body
  end.

(** A [for] loop that threads one local variable through its body. *)
Fixpoint for_fold {A S : Type} (l : list A) (s : S) (body : S -> A -> M S)
  : M S :=
  match l with
  | [] => ret s
  | x :: l' => s' <- body s x ;; for_fold l' s' body
  end.

Definition cpu_units_to_vcpu (cpu_units : option Z) : option float :=
  match cpu_units with
  | None => None
  | Some n =>
      match PyFloat.of_Z n with
      | S754_infinity _ => None           (* OverflowError, caught *)
      | f => Some (PyFloat.div f (PyFloat.of_Z 1024))
      end
  end.

Definition memory_mb_to_gb (memory_mb : option Z) : option float :=
  match memory_mb with
  | None => None
  | Some n =>
      match PyFloat.of_Z n with
      | S754_infinity _ => None
      | f => Some (PyFloat.div f (PyFloat.of_Z 1024))
      end
  end.

Definition parse_int_maybe `{PyRuntime} (v : option string) : option Z :=
  match v with
  | None => None
  | Some v =>
      let s := strip v in
      if (s =? "")%string then None
      else
        match int_of_str s with
        | Some n => Some n
        | None =>
            match float_of_str s with
            | Some x => int_of_float x
            | None => None
            end
        end
  end.

(** ** Data model *)

Record ServiceRow : Type := mkServiceRow {
  account_id : string;
  region : string;
  cluster : string;
  service : string;
  task_definition_arn : string;
  cpu_units : option Z;
  vcpu : option float;
  memory_mb : option Z;
  memory_gb : option float;
  capacity_providers : string;
  desired : Z;
  running : Z;
  pending : Z;
  cpu_pct : option float;
  mem_pct : option float;
  cpu_level : string;
  mem_level : string;
  action : string;
  (** attributes added with [setattr] after construction *)
  extra_attrs : list (string * string)
}.

(** [setattr(row, name, value)]. *)
Definition setattr (row : ServiceRow) (name value : string) : ServiceRow :=
  mkServiceRow (account_id row) (region row) (cluster row) (service row)
    (task_definition_arn row) (cpu_units row) (vcpu row) (memory_mb row)
    (memory_gb row) (capacity_providers row) (desired row) (running row)
    (pending row) (cpu_pct row) (mem_pct row) (cpu_level row) (mem_level row)
    (action row)
    ((name, value) :: extra_attrs row).

(** [getattr(row, name, default)] for an attribute that is not a field. *)
Fixpoint assoc_default (l : list (string * string)) (name default : string)
  : string :=
  match l with
  | [] => default
  | (k, v) :: l' => if (k =? name)%string then v else assoc_default l' name default
  end.

Definition getattr (row : ServiceRow) (name default : string) : string :=
  assoc_default (extra_attrs row) name default.

(** ** The AWS collaborators

    What the clients answer.  A dictionary key that may be missing is an
    [option] field; a call that fails is a [Raise]. *)

Record CapacityProviderItem : Type := {
  capacityProvider : option string;
  weight : option Z;
  base : option Z
}.

Record ServiceDesc : Type := {
  serviceName : option string;
  taskDefinition : option string;
  desiredCount : option Z;
  runningCount : option Z;
  pendingCount : option Z;
  capacityProviderStrategy : option (list CapacityProviderItem)
}.

Record TaskDefinition : Type := {
  td_cpu : option string;
  td_memory : option string
}.

Record Datapoint : Type := {
  Timestamp : Z;
  Average : option float
}.

Record Dimension : Type := { Name : string; Value : string }.

Record EcsClient : Type := {
  (** the pages of [get_paginator("list_clusters").paginate()], each with
      its ["clusterArns"] entry *)
  paginate_list_clusters : result (list (option (list string)));
  (** the pages of [get_paginator("list_services").paginate(cluster=...)],
      each with its ["serviceArns"] entry *)
  paginate_list_services : string -> result (list (option (list string)));
  (** the ["services"] entry of [describe_services(cluster, services)] *)
  client_describe_services :
    string -> list string -> result (option (list ServiceDesc));
  (** the ["taskDefinition"] entry of [describe_task_definition] *)
  client_describe_task_definition : string -> result (option TaskDefinition)
}.

Record CloudWatchClient : Type := {
  (** the ["Datapoints"] entry of [get_metric_statistics(Namespace,
      MetricName, Dimensions, StartTime, EndTime, Period)] *)
  get_metric_statistics :
    string -> string -> list Dimension -> Z -> Z -> Z ->
    result (option (list Datapoint))
}.

(** The surroundings of a run: [boto3.Session(profile, region)] with its two
    clients, the lines of a text file, whether [open(path, "w")] succeeds,
    and the clock.  Instants are counted in microseconds from the epoch. *)
Record Env : Type := {
  boto3_session : string -> string -> result (EcsClient * CloudWatchClient);
  read_lines : string -> result (list string);
  open_for_write : string -> result unit;
  now : Z
}.

Definition or_default {A : Type} (o : option A) (d : A) : A :=
  match o with Some a => a | None => d end.

(** ** AWS collectors *)

Definition extend_pages (pages : list (option (list string))) : list string :=
  fold_left (fun arns page => (arns ++ or_default page [])%list) pages [].

Definition list_all_clusters (ecs : EcsClient) : M (list string) :=
  pages <- lift (paginate_list_clusters ecs) ;;
  ret (extend_pages pages).

Definition list_services_in_cluster (ecs : EcsClient) (cluster_arn : string)
  : M (list string) :=
  pages <- lift (paginate_list_services ecs cluster_arn) ;;
  ret (extend_pages pages).

Definition describe_services (ecs : EcsClient) (cluster_arn : string)
    (service_arns : list string) : M (list ServiceDesc) :=
  for_fold (chunks service_arns 10) []
    (fun out batch =>
       resp <- lift (client_describe_services ecs cluster_arn batch) ;;
       ret (out ++ or_default resp [])%list).

Definition describe_task_definition (ecs : EcsClient) (task_def_arn : string)
  : M TaskDefinition :=
  resp <- lift (client_describe_task_definition ecs task_def_arn) ;;
  ret (or_default resp {| td_cpu := None; td_memory := None |}).

(** [str(x)] for an optional integer. *)
Definition str_opt_int (x : option Z) : string :=
  match x with None => "None" | Some n => str_int n end.

Definition capacity_provider_part (cp : CapacityProviderItem) : string :=
  let name := or_default (capacityProvider cp) "" in
  match weight cp, base cp with
  | None, None => name
  | w, b => name ++ "(weight=" ++ str_opt_int w ++ ",base=" ++ str_opt_int b ++ ")"
  end.

Definition capacity_providers_str (svc : ServiceDesc) : string :=
  let cps := or_default (capacityProviderStrategy svc) [] in
  match cps with
  | [] => ""
  | _ => join "," (map capacity_provider_part cps)
  end.

(** ** CloudWatch metrics *)

(** [[dp["Average"] for dp in dps if "Average" in dp]]. *)
Fixpoint averages (dps : list Datapoint) : list float :=
  match dps with
  | [] => []
  | dp :: dps' =>
      match Average dp with
      | Some v => v :: averages dps'
      | None => averages dps'
      end
  end.

(** [float(sum(vals) / len(vals))], the sum taken from left to right
    starting at [0].  (From CPython 3.12 on, [sum] adds floats with a
    compensated sum, which can differ from this one in the last bits; the
    properties below do not depend on the value of the mean.) *)
Definition mean (vals : list float) : float :=
  PyFloat.div (fold_left PyFloat.add vals (PyFloat.of_Z 0))
              (PyFloat.of_Z (Z.of_nat (List.length vals))).

Definition get_metric_avg (cw : CloudWatchClient) (namespace metric_name : string)
    (dimensions : list Dimension) (start end_ period : Z) : M (option float) :=
  try_except
    (resp <- lift (get_metric_statistics cw namespace metric_name dimensions
                     start end_ period) ;;
     let dps := or_default resp [] in
     match dps with
     | [] => ret None
     | _ =>
         let dps := sort_by Z.ltb Timestamp dps in
         let vals := averages dps in
         match vals with
         | [] => ret None
         | _ => ret (Some (mean vals))
         end
     end)
    client_or_botocore
    (fun _ => ret None).

(** The averaging period for a window of [end_ - start] microseconds. *)
Definition period_for (start end_ : Z) : Z :=
  let total_micro := end_ - start in
  if total_micro <=? 6 * 3600 * 1000000 then 60
  else if total_micro <=? 48 * 3600 * 1000000 then 300
  else 900.

Definition is_some {A : Type} (o : option A) : bool :=
  match o with Some _ => true | None => false end.

Definition fetch_cpu_mem_pct (cw : CloudWatchClient)
    (cluster_name service_name : string) (start end_ : Z)
  : M (option float * option float * string) :=
  let period := period_for start end_ in
  let dims := [ {| Name := "ClusterName"; Value := cluster_name |};
                {| Name := "ServiceName"; Value := service_name |} ] in
  cpu <- get_metric_avg cw "ECS/ContainerInsights" "CpuUtilization" dims
           start end_ period ;;
  mem <- get_metric_avg cw "ECS/ContainerInsights" "MemoryUtilization" dims
           start end_ period ;;
  if is_some cpu || is_some mem then ret (cpu, mem, "ECS/ContainerInsights")
  else
    cpu <- get_metric_avg cw "AWS/ECS" "CPUUtilization" dims start end_ period ;;
    mem <- get_metric_avg cw "AWS/ECS" "MemoryUtilization" dims start end_ period ;;
    if is_some cpu || is_some mem then ret (cpu, mem, "AWS/ECS")
    else ret (None, None, "no_data").

(** ** Output *)

Definition csv_fields : list string :=
  [ "account_id"; "region"; "cluster"; "service"; "task_definition_arn";
    "cpu_units"; "vcpu"; "memory_mb"; "memory_gb"; "capacity_providers";
    "desired"; "running"; "pending"; "cpu_pct"; "cpu_level"; "mem_pct";
    "mem_level"; "recommendation"; "metrics_source"; "error" ].

Definition int_or_empty (x : option Z) : string :=
  match x with Some n => str_int n | None => "" end.

Definition fmt2_or_empty `{PyRuntime} (x : option float) : string :=
  match x with Some v => float_fmt2 v | None => "" end.

(** The values of one row in the order of [csv_fields]. *)
Definition csv_values `{PyRuntime} (r : ServiceRow) : list string :=
  [ account_id r; region r; cluster r; service r; task_definition_arn r;
    int_or_empty (cpu_units r); fmt2_or_empty (vcpu r);
    int_or_empty (memory_mb r); fmt2_or_empty (memory_gb r);
    capacity_providers r;
    str_int (desired r); str_int (running r); str_int (pending r);
    fmt2_or_empty (cpu_pct r); cpu_level r;
    fmt2_or_empty (mem_pct r); mem_level r;
    action r;
    getattr r "metrics_source" ""; getattr r "error" "" ].

Definition csv_document `{PyRuntime} (rows : list ServiceRow) : list string :=
  csv_line csv_fields :: map (fun r => csv_line (csv_values r)) rows.

Definition write_csv `{PyRuntime} (env : Env) (rows : list ServiceRow)
    (out_path : string) : M unit :=
  if (out_path =? "-")%string
  then for_each (csv_document rows) print
  else
    lift (open_for_write env out_path) ;;;
    write_file out_path (csv_document rows).

Definition nl : string := String "010"%char "".

(** [str(x)] for an optional float, as an f-string renders it. *)
Definition str_opt_float `{PyRuntime} (x : option float) : string :=
  match x with Some v => float_str v | None => "None" end.

Definition minus_one : float := PyFloat.neg (PyFloat.of_Z 1).

Definition k_cpu (r : ServiceRow) : float :=
  match cpu_pct r with Some v => v | None => minus_one end.

Definition k_mem (r : ServiceRow) : float :=
  match mem_pct r with Some v => v | None => minus_one end.

Definition is_bottleneck (r : ServiceRow) : bool :=
  (0 <? running r)
  && ((cpu_level r =? "high")%string || (mem_level r =? "high")%string).

Definition is_oversized (r : ServiceRow) : bool :=
  (0 <? running r)
  && (cpu_level r =? "low")%string && (mem_level r =? "low")%string.

Definition is_stopped (r : ServiceRow) : bool := running r =? 0.

Definition line_bottleneck_cpu `{PyRuntime} (r : ServiceRow) : string :=
  account_id r ++ " | " ++ cluster r ++ "/" ++ service r
  ++ " | CPU " ++ str_opt_float (cpu_pct r) ++ "% (" ++ cpu_level r
  ++ ") | Mem " ++ str_opt_float (mem_pct r) ++ "% (" ++ mem_level r ++ ")".

Definition line_bottleneck_mem `{PyRuntime} (r : ServiceRow) : string :=
  account_id r ++ " | " ++ cluster r ++ "/" ++ service r
  ++ " | Mem " ++ str_opt_float (mem_pct r) ++ "% (" ++ mem_level r
  ++ ") | CPU " ++ str_opt_float (cpu_pct r) ++ "% (" ++ cpu_level r ++ ")".

Definition line_oversized `{PyRuntime} (r : ServiceRow) : string :=
  account_id r ++ " | " ++ cluster r ++ "/" ++ service r
  ++ " | CPU " ++ str_opt_float (cpu_pct r)
  ++ "% | Mem " ++ str_opt_float (mem_pct r) ++ "%".

Definition line_stopped (r : ServiceRow) : string :=
  account_id r ++ " | " ++ cluster r ++ "/" ++ service r
  ++ " | desired=" ++ str_int (desired r)
  ++ " running=" ++ str_int (running r)
  ++ " pending=" ++ str_int (pending r).

Definition str_len {A : Type} (l : list A) : string :=
  str_int (Z.of_nat (List.length l)).

Definition nonempty {A : Type} (l : list A) : bool :=
  match l with [] => false | _ => true end.

(** The elements of [l] at the given positions. *)
Definition pick {A : Type} (l : list A) (positions : list nat) : list A :=
  flat_map (fun i => match nth_error l i with Some a => [a] | None => [] end)
           positions.

(** [sorted(l, key=key, reverse=True)] for float keys. *)
Definition sorted_key_reverse `{PyRuntime} {A : Type} (key : A -> float)
    (l : list A) : list A :=
  if existsb PyFloat.is_nan (map key l)
  then pick l (sorted_reverse_nan (map key l))
  else sorted_reverse PyFloat.lt key l.

Definition print_summary `{PyRuntime} (rows : list ServiceRow) (top : Z)
  : M unit :=
  let bottlenecks := filter is_bottleneck rows in
  let oversized := filter is_oversized rows in
  let stopped := filter is_stopped rows in
  print (nl ++ "=== SUMMARY ===") ;;;
  print ("Total services: " ++ str_len rows) ;;;
  print ("Bottlenecks (high CPU or high memory, running>0): "
         ++ str_len bottlenecks) ;;;
  print ("Over-provisioned (low CPU and low memory, running>0): "
         ++ str_len oversized) ;;;
  print ("Running=0: " ++ str_len stopped) ;;;
  (if nonempty bottlenecks then
     print (nl ++ "--- Top bottlenecks by CPU% ---") ;;;
     for_each (slice_to (sorted_key_reverse k_cpu bottlenecks) top)
       (fun r => print (line_bottleneck_cpu r)) ;;;
     print (nl ++ "--- Top bottlenecks by Memory% ---") ;;;
     for_each (slice_to (sorted_key_reverse k_mem bottlenecks) top)
       (fun r => print (line_bottleneck_mem r))
   else ret tt) ;;;
  (if nonempty oversized then
     print (nl ++ "--- Top over-provisioned (low CPU + low memory) ---") ;;;
     for_each (slice_to oversized top) (fun r => print (line_oversized r))
   else ret tt) ;;;
  (if nonempty stopped then
     print (nl ++ "--- Running=0 (cleanup / on-demand candidates) ---") ;;;
     for_each (slice_to stopped top) (fun r => print (line_stopped r))
   else ret tt).

(** ** Multi-profile handling *)

Definition DEFAULT_PROFILES : list string :=
  [ "company-dev"; "company-staging"; "company-prod" ].

Module Args.
(** The parsed command line. *)
Record t : Type := {
  profile : option string;
  profiles : option string;
  profiles_file : option string;
  region : string;
  output : string;
  clusters : string;
  hours : Z;
  cpu_low_max : float;
  cpu_med_max : float;
  mem_low_max : float;
  mem_med_max : float;
  top : Z
}.
End Args.

(** The truth value of an optional string. *)
Definition truthy (o : option string) : bool :=
  match o with Some s => negb (s =? "")%string | None => false end.

(** [[p.strip() for p in s.split(",") if p.strip()]]. *)
Definition stripped_items `{PyRuntime} (s : string) : list string :=
  filter (fun p => negb (p =? "")%string) (map strip (split s ","%char)).

Definition profile_lines `{PyRuntime} (lines : list string) : list string :=
  filter (fun line => negb ((line =? "")%string || startswith line "#"))
         (map strip lines).

Definition parse_profiles `{PyRuntime} (env : Env) (args : Args.t)
  : M (list string) :=
  if truthy (Args.profiles args)
  then ret (stripped_items (or_default (Args.profiles args) ""))
  else if truthy (Args.profiles_file args)
  then
    lines <- lift (read_lines env (or_default (Args.profiles_file args) "")) ;;
    ret (profile_lines lines)
  else if truthy (Args.profile args)
  then ret [or_default (Args.profile args) ""]
  else ret DEFAULT_PROFILES.

(** The task sizing of a service: [cpu_units], [memory_mb], [vcpu], [mem_gb]. *)
Definition task_sizing `{PyRuntime} (ecs : EcsClient) (task_def_arn : string)
  : M (option Z * option Z * option float * option float) :=
  try_except
    (td <- (if negb (task_def_arn =? "")%string
            then describe_task_definition ecs task_def_arn
            else ret {| td_cpu := None; td_memory := None |}) ;;
     let cpu_units := parse_int_maybe (td_cpu td) in
     let memory_mb := parse_int_maybe (td_memory td) in
     let vcpu := if is_some cpu_units then cpu_units_to_vcpu cpu_units
                 else None in
     let mem_gb := if is_some memory_mb then memory_mb_to_gb memory_mb
                   else None in
     ret (cpu_units, memory_mb, vcpu, mem_gb))
    any_exception
    (fun _ => ret (None, None, None, None)).

(** The body of the loop over the services of one cluster. *)
Definition service_row `{PyRuntime} (ecs : EcsClient) (cw : CloudWatchClient)
    (account_id region cluster_name : string) (start end_ : Z)
    (args : Args.t) (svc : ServiceDesc) : M ServiceRow :=
  let svc_name := or_default (serviceName svc) "" in
  let task_def_arn := or_default (taskDefinition svc) "" in
  let desired := or_default (desiredCount svc) 0 in
  let running := or_default (runningCount svc) 0 in
  let pending := or_default (pendingCount svc) 0 in
  let cap_prov := capacity_providers_str svc in
  sizing <- task_sizing ecs task_def_arn ;;
  let '(cpu_units, memory_mb, vcpu, mem_gb) := sizing in
  metrics <- fetch_cpu_mem_pct cw cluster_name svc_name start end_ ;;
  let '(cpu_pct, mem_pct, metrics_source) := metrics in
  let cpu_level :=
    classify cpu_pct (Args.cpu_low_max args) (Args.cpu_med_max args) in
  let mem_level :=
    classify mem_pct (Args.mem_low_max args) (Args.mem_med_max args) in
  let action := recommendation cpu_level mem_level running in
  let row :=
    mkServiceRow account_id region cluster_name svc_name task_def_arn
      cpu_units vcpu memory_mb mem_gb cap_prov desired running pending
      cpu_pct mem_pct cpu_level mem_level action [] in
  ret (setattr row "metrics_source" metrics_source).

(** The body of the loop over the clusters: [None] stands for [continue]. *)
Definition cluster_rows `{PyRuntime} (ecs : EcsClient) (cw : CloudWatchClient)
    (profile region : string) (start end_ : Z) (args : Args.t)
    (rows : list ServiceRow) (c_arn : string) : M (list ServiceRow) :=
  let cluster_name := arn_to_name c_arn in
  listed <-
    try_except
      (arns <- list_services_in_cluster ecs c_arn ;; ret (Some arns))
      any_exception
      (fun e =>
         eprint ("[WARN] list_services failed for profile=" ++ profile
                 ++ " cluster=" ++ cluster_name ++ ": " ++ exn_text e) ;;;
         ret None) ;;
  match listed with
  | None => ret rows
  | Some [] => ret rows
  | Some service_arns =>
      described <-
        try_except
          (svcs <- describe_services ecs c_arn service_arns ;; ret (Some svcs))
          any_exception
          (fun e =>
             eprint ("[WARN] describe_services failed for profile=" ++ profile
                     ++ " cluster=" ++ cluster_name ++ ": " ++ exn_text e) ;;;
             ret None) ;;
      match described with
      | None => ret rows
      | Some services =>
          for_fold services rows
            (fun rows svc =>
               row <- service_row ecs cw profile region cluster_name
                        start end_ args svc ;;
               ret (rows ++ [row])%list)
      end
  end.

Definition collect_for_profile `{PyRuntime} (env : Env) (profile region : string)
    (start end_ : Z) (args : Args.t) : M (list ServiceRow) :=
  let rows : list ServiceRow := [] in
  session <-
    try_except
      (clients <- lift (boto3_session env profile region) ;; ret (Some clients))
      any_exception
      (fun e =>
         eprint ("[ERROR] Failed to create session for profile=" ++ profile
                 ++ ": " ++ exn_text e) ;;;
         ret None) ;;
  match session with
  | None => ret rows
  | Some (ecs, cw) =>
      let account_id := profile in
      let filter_names := stripped_items (Args.clusters args) in
      listed <-
        try_except
          (arns <- list_all_clusters ecs ;; ret (Some arns))
          any_exception
          (fun e =>
             eprint ("[ERROR] list_clusters failed for profile=" ++ profile
                     ++ ": " ++ exn_text e) ;;;
             ret None) ;;
      match listed with
      | None => ret rows
      | Some cluster_arns =>
          let cluster_arns :=
            if nonempty filter_names
            then filter (fun arn =>
                           existsb (String.eqb (arn_to_name arn)) filter_names)
                        cluster_arns
            else cluster_arns in
          for_fold cluster_arns rows
            (cluster_rows ecs cw account_id region start end_ args)
      end
  end.

(** ** Main *)

(** The range of [datetime] and of [timedelta]: the years 1 to 9999, in
    microseconds from the epoch, and at most 999999999 days, which a C [int]
    must hold in the first place. *)
Definition datetime_min : Z := -62135596800000000.
Definition datetime_max : Z := 253402300799999999.
Definition timedelta_max_days : Z := 999999999.
Definition c_int_max : Z := 2147483647.

Definition overflow_error (text : string) : exn := Exn OtherException text.

(** [end_ - dt.timedelta(hours=h)]: an [OverflowError] when the [timedelta]
    exceeds its range or the difference leaves the range of [datetime]. *)
Definition minus_hours (end_ h : Z) : result Z :=
  let days := h / 24 in
  if (days <? - c_int_max - 1) || (c_int_max <? days)
  then Raise (overflow_error "Python int too large to convert to C int")
  else if (days <? - timedelta_max_days) || (timedelta_max_days <? days)
  then Raise (overflow_error ("days=" ++ str_int days
                              ++ "; must have magnitude <= 999999999"))
  else
    let start := end_ - h * 3600 * 1000000 in
    if (start <? datetime_min) || (datetime_max <? start)
    then Raise (overflow_error "date value out of range")
    else Ok start.

(** The window and the loop over the profiles. *)
Definition collect_all `{PyRuntime} (env : Env) (args : Args.t)
  : M (list ServiceRow) :=
  profiles <- parse_profiles env args ;;
  let region := Args.region args in
  let end_ := now env in
  start <- lift (minus_hours end_ (Z.max 1 (Args.hours args))) ;;
  for_fold profiles []
    (fun all_rows prof =>
       print (nl ++ "==> Collecting ECS data for profile: " ++ prof
              ++ " | region: " ++ region) ;;;
       rows <- collect_for_profile env prof region start end_ args ;;
       ret (all_rows ++ rows)%list).

Definition check_mark : string :=
  String "226"%char (String "156"%char (String "133"%char "")).

(** What [main] does once the rows are collected. *)
Definition report `{PyRuntime} (env : Env) (args : Args.t)
    (all_rows : list ServiceRow) : M Z :=
  match all_rows with
  | [] =>
      eprint "No services found (or access failure)." ;;;
      ret 2
  | _ =>
      write_csv env all_rows (Args.output args) ;;;
      print (nl ++ check_mark ++ " Enriched CSV generated at: "
             ++ Args.output args) ;;;
      print_summary all_rows (Args.top args) ;;;
      ret 0
  end.

(** The exit status of the run. *)
Definition main `{PyRuntime} (env : Env) (args : Args.t) : M Z :=
  all_rows <- collect_all env args ;;
  report env args all_rows.

(** ** A small world to run the program in

    [sample_runtime] stands in for the interpreter on the inputs of the
    examples below: strings without surrounding blanks, decimal integers,
    floats with an integral value, CSV cells without separators, sort keys
    without a NaN. *)

Fixpoint digits_value (s : string) (acc : Z) : option Z :=
  match s with
  | EmptyString => Some acc
  | String c rest =>
      let n := Z.of_nat (nat_of_ascii c) - 48 in
      if (0 <=? n) && (n <=? 9) then digits_value rest (10 * acc + n) else None
  end.

Definition sample_float_text (suffix : string) (x : float) : string :=
  match int_of_float x with
  | Some n => str_int n ++ suffix
  | None => "nan"
  end.

Definition crlf : string := String "013"%char (String "010"%char "").

Definition sample_runtime : PyRuntime := {|
  strip := fun s => s;
  int_of_str := fun s => if (s =? "")%string then None else digits_value s 0;
  float_of_str := fun _ => None;
  float_str := sample_float_text ".0";
  float_fmt2 := sample_float_text ".00";
  csv_line := fun cells => join "," cells ++ crlf;
  sorted_reverse_nan := fun keys => seq 0 (List.length keys)
|}.

Definition sample_cluster_arn : string :=
  "arn:aws:ecs:us-east-1:111122223333:cluster/api".
Definition sample_service_arn : string :=
  "arn:aws:ecs:us-east-1:111122223333:service/api/web".

Definition sample_service : ServiceDesc := {|
  serviceName := Some "web";
  taskDefinition := Some "web:7";
  desiredCount := Some 3;
  runningCount := Some 3;
  pendingCount := None;
  capacityProviderStrategy :=
    Some [ {| capacityProvider := Some "FARGATE"; weight := Some 1;
              base := None |} ]
|}.

Definition sample_ecs : EcsClient := {|
  paginate_list_clusters := Ok [Some [sample_cluster_arn]];
  paginate_list_services := fun _ => Ok [Some [sample_service_arn]; None];
  client_describe_services := fun _ _ => Ok (Some [sample_service]);
  client_describe_task_definition :=
    fun _ => Ok (Some {| td_cpu := Some "256"; td_memory := Some "512" |})
|}.

(** Container Insights knows the CPU of the service only; the lookup of its
    memory fails inside the client; the AWS/ECS namespace is never reached. *)
Definition sample_cw : CloudWatchClient := {|
  get_metric_statistics := fun namespace metric_name _ _ _ _ =>
    if (namespace =? "ECS/ContainerInsights")%string then
      if (metric_name =? "CpuUtilization")%string then
        Ok (Some [ {| Timestamp := 200; Average := Some (PyFloat.of_Z 80) |};
                   {| Timestamp := 100; Average := Some (PyFloat.of_Z 70) |};
                   {| Timestamp := 300; Average := None |} ])
      else Raise (Exn ClientError "Throttling")
    else Raise (Exn OtherException "unreachable")
|}.

(** A client without any metric. *)
Definition silent_cw : CloudWatchClient := {|
  get_metric_statistics := fun _ _ _ _ _ _ => Ok (Some [])
|}.

(** A client whose every lookup is refused. *)
Definition failing_cw : CloudWatchClient := {|
  get_metric_statistics := fun _ _ _ _ _ _ =>
    Raise (Exn BotoCoreError "Could not connect to the endpoint URL")
|}.

(** A client whose lookups fail with an exception of another class. *)
Definition crashing_cw : CloudWatchClient := {|
  get_metric_statistics := fun _ _ _ _ _ _ =>
    Raise (Exn OtherException "unexpected failure inside the client")
|}.

Definition crashing_env : Env := {|
  boto3_session := fun _ _ => Ok (sample_ecs, crashing_cw);
  read_lines := fun _ => Ok [];
  open_for_write := fun _ => Ok tt;
  now := 1793836800000000
|}.

Definition sample_env : Env := {|
  boto3_session := fun profile _ =>
    if (profile =? "company-dev")%string then Ok (sample_ecs, sample_cw)
    else Raise (Exn OtherException "The config profile could not be found");
  read_lines := fun _ => Raise (Exn OtherException "No such file or directory");
  open_for_write := fun _ => Ok tt;
  now := 1793836800000000
|}.

Definition sample_args_for (profiles output : string) : Args.t := {|
  Args.profile := None;
  Args.profiles := Some profiles;
  Args.profiles_file := None;
  Args.region := "us-east-1";
  Args.output := output;
  Args.clusters := "";
  Args.hours := 24;
  Args.cpu_low_max := DEFAULT_CPU_LOW_MAX;
  Args.cpu_med_max := DEFAULT_CPU_MED_MAX;
  Args.mem_low_max := DEFAULT_MEM_LOW_MAX;
  Args.mem_med_max := DEFAULT_MEM_MED_MAX;
  Args.top := 10
|}.

Definition sample_args : Args.t :=
  sample_args_for "company-dev,company-prod" "ecs_enriched.csv".


(** ** The decision table as the specification words it

    Eight rules in order; the first rule whose condition holds gives the
    message. *)
Definition rule : Type := (string -> string -> Z -> bool) * string.

Definition spec_rules : list rule :=
  [ (fun _ _ running => running =? 0, msg_running0);
    (fun cpu mem _ => (cpu =? "high")%string && in2 mem "low" "medium",
     msg_high_cpu);
    (fun _ mem _ => (mem =? "high")%string, msg_high_mem);
    (fun cpu mem _ => (cpu =? "low")%string && (mem =? "low")%string,
     msg_oversized);
    (fun cpu mem _ => (cpu =? "low")%string && in2 mem "medium" "high",
     msg_idle_cpu);
    (fun cpu mem _ => in2 cpu "medium" "high" && (mem =? "low")%string,
     msg_idle_mem);
    (fun cpu mem _ => (cpu =? "no_data")%string || (mem =? "no_data")%string,
     msg_incomplete);
    (fun _ _ _ => true, msg_ok) ].

Fixpoint first_match (rules : list rule) (cpu mem : string) (running : Z)
  : option string :=
  match rules with
  | [] => None
  | (condition, message) :: rules' =>
      if condition cpu mem running then Some message
      else first_match rules' cpu mem running
  end.

Definition all_messages : list string := map snd spec_rules.

(** ** Vocabulary of the properties *)

(** What the lookup of one metric in one namespace yields for a service. *)
Definition lookup (cw : CloudWatchClient) (cluster_name service_name : string)
    (start end_ : Z) (w : World) (namespace metric_name : string)
  : result (option float) :=
  fst (get_metric_avg cw namespace metric_name
         [ {| Name := "ClusterName"; Value := cluster_name |};
           {| Name := "ServiceName"; Value := service_name |} ]
         start end_ (period_for start end_) w).

(** [post m Q]: whenever [m] returns normally, its value satisfies [Q]. *)
Definition post {A : Type} (m : M A) (Q : A -> Prop) : Prop :=
  forall (w w' : World) (a : A), m w = (Ok a, w') -> Q a.

(** The derived fields of a row are what the classifier and the
    recommendation engine compute from its other fields. *)
Definition row_derived (args : Args.t) (r : ServiceRow) : Prop :=
  cpu_level r
  = classify (cpu_pct r) (Args.cpu_low_max args) (Args.cpu_med_max args)
  /\ mem_level r
     = classify (mem_pct r) (Args.mem_low_max args) (Args.mem_med_max args)
  /\ action r = recommendation (cpu_level r) (mem_level r) (running r).

(** [returns m]: [m] returns normally from every world. *)
Definition returns {A : Type} (m : M A) : Prop :=
  forall w : World, exists (a : A) (w' : World), m w = (Ok a, w').

(** A CloudWatch client that fails only with its own error classes. *)
Definition well_behaved (cw : CloudWatchClient) : Prop :=
  forall namespace metric_name dims start end_ period err,
    get_metric_statistics cw namespace metric_name dims start end_ period
    = Raise err ->
    client_or_botocore err = true.

(** [keeps_files m]: [m] creates no file, whether it returns or raises. *)
Definition keeps_files {A : Type} (m : M A) : Prop :=
  forall w : World, files (snd (m w)) = files w.

(** [prints m lines]: [m] returns normally, sends exactly [lines] to
    standard output and touches nothing else. *)
Definition prints (m : M unit) (lines : list string) : Prop :=
  forall w : World,
    m w = (Ok tt, mkWorld (stdout w ++ lines) (stderr w) (files w)).

Section KeyOrder.
Context {A : Type} (key : A -> float).

(** The key of [a] is a number. *)
Definition numeric_key (a : A) : Prop := PyFloat.is_nan (key a) = false.

(** Ascending and descending order of the keys. *)
Definition key_le (a b : A) : Prop := (key a <=?. key b) = true.
Definition key_ge (a b : A) : Prop := (key b <=?. key a) = true.
End KeyOrder.

(** The text of the summary, given the rows that each section lists. *)
Definition summary_counts (rows : list ServiceRow) : list string :=
  [ nl ++ "=== SUMMARY ===";
    "Total services: " ++ str_len rows;
    "Bottlenecks (high CPU or high memory, running>0): "
      ++ str_len (filter is_bottleneck rows);
    "Over-provisioned (low CPU and low memory, running>0): "
      ++ str_len (filter is_oversized rows);
    "Running=0: " ++ str_len (filter is_stopped rows) ].

Definition summary_layout `{PyRuntime} (rows : list ServiceRow)
    (by_cpu by_mem over idle : list ServiceRow) : list string :=
  let section (shown : list ServiceRow) (lines : list string) :=
    if nonempty shown then lines else [] in
  (summary_counts rows
   ++ section (filter is_bottleneck rows)
        (((nl ++ "--- Top bottlenecks by CPU% ---")%string
            :: map line_bottleneck_cpu by_cpu)
         ++ (nl ++ "--- Top bottlenecks by Memory% ---")%string
            :: map line_bottleneck_mem by_mem)
   ++ section (filter is_oversized rows)
        ((nl ++ "--- Top over-provisioned (low CPU + low memory) ---")%string
           :: map line_oversized over)
   ++ section (filter is_stopped rows)
        ((nl ++ "--- Running=0 (cleanup / on-demand candidates) ---")%string
           :: map line_stopped idle))%list.

Definition no_services_message : string :=
  "No services found (or access failure).".

Definition generated_message (args : Args.t) : string :=
  nl ++ check_mark ++ " Enriched CSV generated at: " ++ Args.output args.

(** A row as the collector builds it under the default thresholds. *)
Definition sample_row (name : string) (cpu mem : option float) (running : Z)
  : ServiceRow :=
  let cpu_level := classify cpu DEFAULT_CPU_LOW_MAX DEFAULT_CPU_MED_MAX in
  let mem_level := classify mem DEFAULT_MEM_LOW_MAX DEFAULT_MEM_MED_MAX in
  mkServiceRow "company-dev" "us-east-1" "api" name "" None None None None ""
    running running 0 cpu mem cpu_level mem_level
    (recommendation cpu_level mem_level running) [].

Definition pct (n : Z) : option float := Some (PyFloat.of_Z n).

Definition sample_rows : list ServiceRow :=
  [ sample_row "web" (pct 75) (pct 20) 3;
    sample_row "db" (pct 90) None 1;
    sample_row "batch" (pct 10) (pct 10) 2;
    sample_row "old" None None 0 ].

(** ** More of the small world *)

(** The description of a service that carries only its name. *)
Definition named_service (arn : string) : ServiceDesc := {|
  serviceName := Some (arn_to_name arn);
  taskDefinition := None;
  desiredCount := Some 1;
  runningCount := Some 1;
  pendingCount := Some 0;
  capacityProviderStrategy := None
|}.

(** A client that describes up to ten services at a time and refuses
    longer requests, as the service does. *)
Definition batch_ecs : EcsClient := {|
  paginate_list_clusters := Ok [Some [sample_cluster_arn]];
  paginate_list_services := fun _ => Ok [];
  client_describe_services := fun _ batch =>
    if (List.length batch <=? 10)%nat then Ok (Some (map named_service batch))
    else Raise (Exn ClientError "InvalidParameterException");
  client_describe_task_definition := fun _ => Ok None
|}.

Definition twelve_services : list string :=
  map (fun n => "arn:aws:ecs:us-east-1:111122223333:service/api/" ++ n)
      ["a"; "b"; "c"; "d"; "e"; "f"; "g"; "h"; "i"; "j"; "k"; "l"].

(** The answer of [sample_cw] on the CPU of the service, listed in another
    order. *)
Definition reordered_cw : CloudWatchClient := {|
  get_metric_statistics := fun _ _ _ _ _ _ =>
    Ok (Some [ {| Timestamp := 300; Average := None |};
               {| Timestamp := 100; Average := Some (PyFloat.of_Z 70) |};
               {| Timestamp := 200; Average := Some (PyFloat.of_Z 80) |} ])
|}.

(** [x == y] on floats. *)
Definition same_float (x y : float) : bool := SFeqb x y.

(** How many of the three summary groups a row belongs to. *)
Definition group_count (r : ServiceRow) : nat :=
  Nat.b2n (is_bottleneck r) + Nat.b2n (is_oversized r) + Nat.b2n (is_stopped r).

(** The levels in increasing order of pressure. *)
Definition level_rank (level : string) : nat :=
  if (level =? "low")%string then 0
  else if (level =? "medium")%string then 1
  else if (level =? "high")%string then 2
  else 3.

Definition levels : list string := ["low"; "medium"; "high"; "no_data"].

(** [logs_only m]: whether [m] returns or raises, it leaves standard output
    and the files as they are and only adds to standard error. *)
Definition logs_only {A : Type} (m : M A) : Prop :=
  forall w : World,
    exists errs : list string,
      snd (m w) = mkWorld (stdout w) (stderr w ++ errs) (files w).

(** A command line that names a profiles file. *)
Definition file_args (path : string) : Args.t := {|
  Args.profile := Some "company-dev";
  Args.profiles := None;
  Args.profiles_file := Some path;
  Args.region := "us-east-1";
  Args.output := "-";
  Args.clusters := "";
  Args.hours := 24;
  Args.cpu_low_max := DEFAULT_CPU_LOW_MAX;
  Args.cpu_med_max := DEFAULT_CPU_MED_MAX;
  Args.mem_low_max := DEFAULT_MEM_LOW_MAX;
  Args.mem_med_max := DEFAULT_MEM_MED_MAX;
  Args.top := 10
|}.

Definition source_labels : list string :=
  ["ECS/ContainerInsights"; "AWS/ECS"; "no_data"].

(** What every row of a profile records about where it comes from. *)
Definition row_origin (profile region_name : string) (r : ServiceRow) : Prop :=
  account_id r = profile
  /\ region r = region_name
  /\ getattr r "error" "" = ""
  /\ In (getattr r "metrics_source" "") source_labels
  /\ (getattr r "metrics_source" "" = "no_data"
      <-> cpu_pct r = None /\ mem_pct r = None)
  /\ (cpu_units r = None -> vcpu r = None)
  /\ (memory_mb r = None -> memory_gb r = None)
  /\ (task_definition_arn r = "" -> cpu_units r = None /\ memory_mb r = None).

(** A command line that keeps the clusters named [names]. *)
Definition cluster_args (names : string) : Args.t := {|
  Args.profile := Some "company-dev";
  Args.profiles := None;
  Args.profiles_file := None;
  Args.region := "us-east-1";
  Args.output := "-";
  Args.clusters := names;
  Args.hours := 24;
  Args.cpu_low_max := DEFAULT_CPU_LOW_MAX;
  Args.cpu_med_max := DEFAULT_CPU_MED_MAX;
  Args.mem_low_max := DEFAULT_MEM_LOW_MAX;
  Args.mem_med_max := DEFAULT_MEM_MED_MAX;
  Args.top := 10
|}.

(** Two clusters with one service each and no metrics. *)
Definition two_cluster_ecs : EcsClient := {|
  paginate_list_clusters :=
    Ok [ Some ["arn:aws:ecs:us-east-1:111122223333:cluster/api"];
         Some ["arn:aws:ecs:us-east-1:111122223333:cluster/worker"] ];
  paginate_list_services := fun cluster_arn =>
    Ok [Some [(cluster_arn ++ "/svc")%string]];
  client_describe_services := fun _ batch => Ok (Some (map named_service batch));
  client_describe_task_definition := fun _ => Ok None
|}.

Definition two_cluster_env : Env := {|
  boto3_session := fun _ _ => Ok (two_cluster_ecs, silent_cw);
  read_lines := fun _ => Ok [];
  open_for_write := fun _ => Ok tt;
  now := 1793836800000000
|}.

(** The line that announces a profile. *)
Definition progress_line (args : Args.t) (prof : string) : string :=
  nl ++ "==> Collecting ECS data for profile: " ++ prof
  ++ " | region: " ++ Args.region args.

(** Surroundings in which no session can be opened. *)
Definition no_access_env : Env := {|
  boto3_session := fun profile _ =>
    Raise (Exn BotoCoreError
             ("The config profile (" ++ profile ++ ") could not be found"));
  read_lines := fun _ => Ok [];
  open_for_write := fun _ => Ok tt;
  now := 1793836800000000
|}.

(** A client that cannot list its clusters. *)
Definition denied_ecs : EcsClient := {|
  paginate_list_clusters := Raise (Exn ClientError "AccessDeniedException");
  paginate_list_services := fun _ => Raise (Exn ClientError "AccessDeniedException");
  client_describe_services := fun _ _ => Ok None;
  client_describe_task_definition :=
    fun _ => Raise (Exn ClientError "AccessDeniedException")
|}.

Definition denied_env : Env := {|
  boto3_session := fun _ _ => Ok (denied_ecs, silent_cw);
  read_lines := fun _ => Ok [];
  open_for_write := fun _ => Ok tt;
  now := 1793836800000000
|}.

(** What a service description says about the service, with the defaults
    for missing entries, and what a row records of it. *)
Definition service_facts (svc : ServiceDesc)
  : string * string * string * Z * Z * Z :=
  (or_default (serviceName svc) "", or_default (taskDefinition svc) "",
   capacity_providers_str svc, or_default (desiredCount svc) 0,
   or_default (runningCount svc) 0, or_default (pendingCount svc) 0).

Definition row_facts (r : ServiceRow) : string * string * string * Z * Z * Z :=
  (service r, task_definition_arn r, capacity_providers r, desired r,
   running r, pending r).

(** The output of the report can be written: it goes to standard output, or
    its path can be opened. *)
Definition can_write (env : Env) (out_path : string) : Prop :=
  out_path = "-" \/ open_for_write env out_path = Ok tt.

(** The window of the run can be computed and starts at [start]. *)
Definition window_starts (env : Env) (args : Args.t) (start : Z) : Prop :=
  minus_hours (now env) (Z.max 1 (Args.hours args)) = Ok start.

(** The world of [sample_env] with an output directory that does not exist. *)
Definition unwritable_env : Env := {|
  boto3_session := boto3_session sample_env;
  read_lines := read_lines sample_env;
  open_for_write := fun path =>
    Raise (Exn OtherException
             ("[Errno 2] No such file or directory: '" ++ path ++ "'"));
  now := now sample_env
|}.

(** Three bottlenecks, two of them with the same percentages. *)
Definition tied_rows : list ServiceRow :=
  [ sample_row "first" (pct 75) (pct 80) 1;
    sample_row "top" (pct 90) (pct 95) 1;
    sample_row "second" (pct 75) (pct 80) 1 ].

(** A command line that asks for a window of [hours] hours. *)
Definition huge_window_args (hours : Z) : Args.t := {|
  Args.profile := Some "company-dev";
  Args.profiles := None;
  Args.profiles_file := None;
  Args.region := "us-east-1";
  Args.output := "-";
  Args.clusters := "";
  Args.hours := hours;
  Args.cpu_low_max := DEFAULT_CPU_LOW_MAX;
  Args.cpu_med_max := DEFAULT_CPU_MED_MAX;
  Args.mem_low_max := DEFAULT_MEM_LOW_MAX;
  Args.mem_med_max := DEFAULT_MEM_MED_MAX;
  Args.top := 10
|}.

(** * Properties *)

(** ** Comparison of floats *)

Lemma SFcompare_antisym (x y : float) (c : comparison) :
  SFcompare x y = Some c -> SFcompare y x = Some (CompOpp c).
Proof.
  destruct x as [sx|sx| |sx mx ex], y as [sy|sy| |sy my ey];
    try destruct sx; try destruct sy; simpl; intros [= <-]; try reflexivity.
  all: rewrite (Z.compare_antisym ex ey);
    destruct (ex ?= ey); simpl; try reflexivity;
    change (Pos.compare_cont Eq my mx) with (Pos.compare my mx);
    change (Pos.compare_cont Eq mx my) with (Pos.compare mx my);
    rewrite (Pos.compare_antisym mx my);
    destruct (mx ?= my)%positive; reflexivity.
Qed.

Lemma SFcompare_numbers (x y : float) :
  PyFloat.is_nan x = false -> PyFloat.is_nan y = false ->
  exists c, SFcompare x y = Some c.
Proof.
  destruct x, y; simpl; intros; try discriminate; eauto.
Qed.

Ltac cmp_cases :=
  repeat match goal with
  | |- context [Z.compare ?a ?b] => destruct (Z.compare_spec a b)
  | H : context [Z.compare ?a ?b] |- _ => destruct (Z.compare_spec a b)
  | |- context [Pos.compare_cont Eq ?a ?b] =>
      change (Pos.compare_cont Eq a b) with (Pos.compare a b)
  | H : context [Pos.compare_cont Eq ?a ?b] |- _ =>
      change (Pos.compare_cont Eq a b) with (Pos.compare a b) in H
  | |- context [Pos.compare ?a ?b] => destruct (Pos.compare_spec a b)
  | H : context [Pos.compare ?a ?b] |- _ => destruct (Pos.compare_spec a b)
  end.

Ltac float_cases x y z :=
  unfold PyFloat.le, PyFloat.lt, SFleb, SFltb;
  destruct x as [[]|[]| |[] ? ?], y as [[]|[]| |[] ? ?], z as [[]|[]| |[] ? ?];
  simpl; try discriminate; try reflexivity;
  cmp_cases; simpl; intros; subst; try discriminate; try reflexivity; try lia.

Lemma le_lt_trans (x y z : float) :
  (x <=?. y) = true -> (y <?. z) = true -> (x <?. z) = true.
Proof. float_cases x y z. Qed.

Lemma le_trans (x y z : float) :
  (x <=?. y) = true -> (y <=?. z) = true -> (x <=?. z) = true.
Proof. float_cases x y z. Qed.

Lemma lt_le (x y : float) : (x <?. y) = true -> (x <=?. y) = true.
Proof.
  unfold PyFloat.le, PyFloat.lt, SFleb, SFltb.
  destruct (SFcompare x y) as [[]|]; congruence.
Qed.

Lemma lt_not_le (x y : float) : (x <?. y) = true -> (y <=?. x) = false.
Proof.
  unfold PyFloat.le, PyFloat.lt, SFleb, SFltb.
  destruct (SFcompare x y) as [c|] eqn:E; try discriminate.
  rewrite (SFcompare_antisym _ _ _ E). destruct c; simpl; congruence.
Qed.

Lemma le_not_lt (x y : float) : (x <=?. y) = true -> (y <?. x) = false.
Proof.
  unfold PyFloat.le, PyFloat.lt, SFleb, SFltb.
  destruct (SFcompare x y) as [c|] eqn:E; try discriminate.
  rewrite (SFcompare_antisym _ _ _ E). destruct c; simpl; congruence.
Qed.

Lemma not_lt_le (x y : float) :
  PyFloat.is_nan x = false -> PyFloat.is_nan y = false ->
  (x <?. y) = false -> (y <=?. x) = true.
Proof.
  intros Hx Hy. destruct (SFcompare_numbers x y Hx Hy) as [c E].
  unfold PyFloat.le, PyFloat.lt, SFleb, SFltb.
  rewrite E, (SFcompare_antisym _ _ _ E). destruct c; simpl; congruence.
Qed.

Lemma le_left_refl (x y : float) : (x <=?. y) = true -> (x <=?. x) = true.
Proof.
  unfold PyFloat.le, SFleb.
  destruct x as [[]|[]| |[] m e], y; simpl; try discriminate; intros _;
    try reflexivity.
  all: rewrite Z.compare_refl;
    change (Pos.compare_cont Eq m m) with (Pos.compare m m);
    rewrite Pos.compare_refl; reflexivity.
Qed.

Lemma le_right_refl (x y : float) : (x <=?. y) = true -> (y <=?. y) = true.
Proof.
  unfold PyFloat.le, SFleb.
  destruct y as [[]|[]| |[] m e], x; simpl; try discriminate; intros _;
    try reflexivity.
  all: rewrite Z.compare_refl;
    change (Pos.compare_cont Eq m m) with (Pos.compare m m);
    rewrite Pos.compare_refl; reflexivity.
Qed.

(** ** Classifier *)

(** C1, as stated, at thresholds given in the wrong order: 40 is strictly
    greater than [med_max = 30], yet [classify 40 50 30] is ["low"], not
    ["high"], because the test against [low_max] comes first. *)
Lemma classify_high_needs_not_low :
  let v := PyFloat.of_Z 40 in
  let low_max := PyFloat.of_Z 50 in
  let med_max := PyFloat.of_Z 30 in
  (med_max <?. v) = true
  /\ classify (Some v) low_max med_max = "low"
  /\ classify (Some v) low_max med_max <> "high".
Proof.
  repeat split; try reflexivity. vm_compute. discriminate.
Qed.

(** C1, amended: [classify] gives ["no_data"] for an absent value, ["low"]
    for a value strictly below [low_max], ["medium"] for a value that is at
    least [low_max] and at most [med_max] (so both thresholds classify as
    ["medium"] when [low_max <= med_max]), and ["high"] for a value that is
    strictly greater than [med_max] and not strictly below [low_max]. *)
Theorem classify_cases (v low_max med_max : float) :
  classify None low_max med_max = "no_data"
  /\ ((v <?. low_max) = true -> classify (Some v) low_max med_max = "low")
  /\ ((low_max <=?. v) = true -> (v <=?. med_max) = true ->
      classify (Some v) low_max med_max = "medium")
  /\ ((low_max <=?. med_max) = true ->
      classify (Some low_max) low_max med_max = "medium"
      /\ classify (Some med_max) low_max med_max = "medium")
  /\ ((med_max <?. v) = true -> (v <?. low_max) = false ->
      classify (Some v) low_max med_max = "high").
Proof.
  assert (medium : forall x, (low_max <=?. x) = true -> (x <=?. med_max) = true ->
                             classify (Some x) low_max med_max = "medium").
  { intros x Hlo Hhi. unfold classify.
    rewrite (le_not_lt _ _ Hlo), Hhi. reflexivity. }
  repeat split.
  - intros H. unfold classify. rewrite H. reflexivity.
  - apply medium.
  - apply medium; [eapply le_left_refl | ]; eassumption.
  - apply medium; [ | eapply le_right_refl]; eassumption.
  - intros Hhi Hlo. unfold classify.
    rewrite Hlo, (lt_not_le _ _ Hhi). reflexivity.
Qed.

Lemma classify_cases_witness :
  classify (Some (PyFloat.of_Z 20)) DEFAULT_CPU_LOW_MAX DEFAULT_CPU_MED_MAX = "low"
  /\ classify (Some (PyFloat.of_Z 55)) DEFAULT_CPU_LOW_MAX DEFAULT_CPU_MED_MAX
     = "medium"
  /\ classify (Some DEFAULT_CPU_LOW_MAX) DEFAULT_CPU_LOW_MAX DEFAULT_CPU_MED_MAX
     = "medium"
  /\ classify (Some DEFAULT_CPU_MED_MAX) DEFAULT_CPU_LOW_MAX DEFAULT_CPU_MED_MAX
     = "medium"
  /\ classify (Some (PyFloat.of_Z 70)) DEFAULT_CPU_LOW_MAX DEFAULT_CPU_MED_MAX
     = "high".
Proof.
  pose proof (classify_cases (PyFloat.of_Z 20) DEFAULT_CPU_LOW_MAX
                DEFAULT_CPU_MED_MAX) as (_ & Hlow & _).
  pose proof (classify_cases (PyFloat.of_Z 55) DEFAULT_CPU_LOW_MAX
                DEFAULT_CPU_MED_MAX) as (_ & _ & Hmed & Hbounds & _).
  pose proof (classify_cases (PyFloat.of_Z 70) DEFAULT_CPU_LOW_MAX
                DEFAULT_CPU_MED_MAX) as (_ & _ & _ & _ & Hhigh).
  destruct (Hbounds eq_refl) as [Hb1 Hb2].
  exact (conj (Hlow eq_refl)
          (conj (Hmed eq_refl eq_refl)
             (conj Hb1 (conj Hb2 (Hhigh eq_refl eq_refl))))).
Defined.

(** C10, as stated, at a [low_max] that is not a number (the command line
    accepts [nan]): no value is below it, so 10 is classified against
    [med_max = 69] alone and is ["medium"], although [low_max <= med_max]
    does not hold. *)
Lemma classify_medium_with_nan_threshold :
  let v := PyFloat.of_Z 10 in
  let low_max := S754_nan in
  let med_max := PyFloat.of_Z 69 in
  classify (Some v) low_max med_max = "medium"
  /\ (low_max <=?. med_max) = false.
Proof. split; reflexivity. Qed.

(** C10, amended: with [med_max] strictly below [low_max], [classify] never
    answers ["medium"] on a present value: the answer is ["low"] when the
    value is below [low_max] and ["high"] otherwise.  So an answer
    ["medium"] means that [med_max] is not strictly below [low_max], which
    for a [low_max] that is a number says [low_max <= med_max]. *)
Theorem classify_thresholds_inverted (v low_max med_max : float) :
  ((med_max <?. low_max) = true ->
   classify (Some v) low_max med_max <> "medium"
   /\ classify (Some v) low_max med_max
      = (if v <?. low_max then "low" else "high"))
  /\ (classify (Some v) low_max med_max = "medium" ->
      (med_max <?. low_max) = false
      /\ (PyFloat.is_nan low_max = false -> (low_max <=?. med_max) = true)).
Proof.
  assert (key : (med_max <?. low_max) = true ->
                classify (Some v) low_max med_max
                = (if v <?. low_max then "low" else "high")).
  { intros Hinv. unfold classify.
    destruct (v <?. low_max) eqn:Hlo; [reflexivity|].
    destruct (v <=?. med_max) eqn:Hmed; [|reflexivity].
    rewrite (le_lt_trans _ _ _ Hmed Hinv) in Hlo. discriminate. }
  split.
  - intros Hinv. rewrite (key Hinv).
    split; [|reflexivity]. destruct (v <?. low_max); discriminate.
  - intros Hm.
    assert (Hnot : (med_max <?. low_max) = false).
    { destruct (med_max <?. low_max) eqn:Hinv; [|reflexivity].
      rewrite (key eq_refl) in Hm. destruct (v <?. low_max); discriminate. }
    split; [exact Hnot|].
    intros Hnum. apply not_lt_le; try assumption.
    unfold classify in Hm.
    destruct (v <?. low_max); [discriminate|].
    destruct (v <=?. med_max) eqn:Hmed; [|discriminate].
    destruct med_max; try reflexivity. destruct v; discriminate.
Qed.

Lemma classify_thresholds_inverted_witness :
  classify (Some (PyFloat.of_Z 40)) (PyFloat.of_Z 50) (PyFloat.of_Z 30) = "low"
  /\ classify (Some (PyFloat.of_Z 60)) (PyFloat.of_Z 50) (PyFloat.of_Z 30)
     = "high"
  /\ (DEFAULT_CPU_LOW_MAX <=?. DEFAULT_CPU_MED_MAX) = true.
Proof.
  pose proof (classify_thresholds_inverted (PyFloat.of_Z 40) (PyFloat.of_Z 50)
                (PyFloat.of_Z 30)) as [H40 _].
  pose proof (classify_thresholds_inverted (PyFloat.of_Z 60) (PyFloat.of_Z 50)
                (PyFloat.of_Z 30)) as [H60 _].
  pose proof (classify_thresholds_inverted (PyFloat.of_Z 55)
                DEFAULT_CPU_LOW_MAX DEFAULT_CPU_MED_MAX) as [_ Hm].
  exact (conj (proj2 (H40 eq_refl))
          (conj (proj2 (H60 eq_refl)) (proj2 (Hm eq_refl) eq_refl))).
Defined.

(** ** Recommendation engine *)

Lemma recommendation_refines_table (cpu mem : string) (running : Z) :
  first_match spec_rules cpu mem running
  = Some (recommendation cpu mem running).
Proof.
  unfold recommendation, spec_rules, first_match.
  repeat match goal with
         | |- context [if ?b then _ else _] => destruct b; try reflexivity
         end.
Qed.

Lemma first_match_in (rules : list rule) (cpu mem : string) (running : Z)
    (message : string) :
  first_match rules cpu mem running = Some message ->
  In message (map snd rules).
Proof.
  induction rules as [|[condition m] rules IH]; simpl; [discriminate|].
  destruct (condition cpu mem running).
  - intros [= <-]. now left.
  - intros H. right. now apply IH.
Qed.

(** C2: [recommendation] answers on every input, always with one of the
    eight messages, and its answer is the message of the first rule of the
    table whose condition holds.  With a running count above zero, high CPU
    and low memory satisfy the conditions of rule 2 and of rule 6, and the
    answer is the message of rule 2. *)
Theorem recommendation_total_first_match (cpu mem : string) (running : Z) :
  first_match spec_rules cpu mem running
  = Some (recommendation cpu mem running)
  /\ In (recommendation cpu mem running) all_messages
  /\ (0 < running ->
      fst (nth 1 spec_rules (fun _ _ _ => false, "")) "high" "low" running
      = true
      /\ fst (nth 5 spec_rules (fun _ _ _ => false, "")) "high" "low" running
         = true
      /\ recommendation "high" "low" running = msg_high_cpu
      /\ recommendation "high" "low" running <> msg_idle_mem).
Proof.
  split; [apply recommendation_refines_table|].
  split.
  - eapply first_match_in, recommendation_refines_table.
  - intros Hrun. unfold recommendation.
    destruct (Z.eqb_spec running 0) as [->|_]; [lia|].
    repeat split. discriminate.
Qed.

Lemma recommendation_total_first_match_witness :
  recommendation "high" "low" 5 = msg_high_cpu
  /\ recommendation "high" "low" 5 <> msg_idle_mem.
Proof.
  pose proof (recommendation_total_first_match "high" "low" 5) as (_ & _ & H).
  destruct (H eq_refl) as (_ & _ & H2 & H6).
  exact (conj H2 H6).
Defined.

(** C3: with no running task the answer is the no-running-tasks message,
    whatever the two levels are. *)
Theorem recommendation_running_zero (cpu mem : string) :
  recommendation cpu mem 0 = msg_running0.
Proof. reflexivity. Qed.

(** The scenarios of the specification, under the default thresholds. *)
Example scenario_cpu_bottleneck :
  action (sample_row "web" (pct 75) (pct 20) 3) = msg_high_cpu
  /\ cpu_level (sample_row "web" (pct 75) (pct 20) 3) = "high"
  /\ mem_level (sample_row "web" (pct 75) (pct 20) 3) = "low".
Proof. repeat split. Qed.

Example scenario_over_provisioned :
  action (sample_row "batch" (pct 10) (pct 10) 2) = msg_oversized.
Proof. reflexivity. Qed.

Example scenario_no_metrics :
  action (sample_row "new" None None 1) = msg_incomplete.
Proof. reflexivity. Qed.

Example scenario_stopped :
  action (sample_row "old" (pct 90) (pct 90) 0) = msg_running0.
Proof. reflexivity. Qed.

(** ** Summary groups *)

Lemma high_is_not_low (s : string) :
  (s =? "high")%string && (s =? "low")%string = false.
Proof.
  destruct (String.eqb_spec s "high") as [->|_]; reflexivity.
Qed.

(** C9: the three groups of the summary exclude one another: a row with no
    running task is neither a bottleneck nor over-provisioned, and no row is
    both a bottleneck and over-provisioned; so every row of a collection
    lies in at most one group. *)
Theorem summary_groups_disjoint (r : ServiceRow) (rows : list ServiceRow) :
  is_stopped r && is_bottleneck r = false
  /\ is_stopped r && is_oversized r = false
  /\ is_bottleneck r && is_oversized r = false
  /\ (Nat.b2n (is_bottleneck r) + Nat.b2n (is_oversized r)
      + Nat.b2n (is_stopped r) <= 1)%nat
  /\ ~ (In r (filter is_bottleneck rows) /\ In r (filter is_oversized rows))
  /\ ~ (In r (filter is_bottleneck rows) /\ In r (filter is_stopped rows))
  /\ ~ (In r (filter is_oversized rows) /\ In r (filter is_stopped rows)).
Proof.
  assert (Hsb : is_stopped r && is_bottleneck r = false).
  { unfold is_stopped, is_bottleneck.
    destruct (Z.eqb_spec (running r) 0) as [->|_]; reflexivity. }
  assert (Hso : is_stopped r && is_oversized r = false).
  { unfold is_stopped, is_oversized.
    destruct (Z.eqb_spec (running r) 0) as [->|_]; reflexivity. }
  assert (Hbo : is_bottleneck r && is_oversized r = false).
  { unfold is_bottleneck, is_oversized.
    destruct (0 <? running r); [simpl|reflexivity].
    pose proof (high_is_not_low (cpu_level r)) as Hc.
    pose proof (high_is_not_low (mem_level r)) as Hm.
    destruct (cpu_level r =? "high")%string, (cpu_level r =? "low")%string,
      (mem_level r =? "high")%string, (mem_level r =? "low")%string;
      simpl in *; congruence. }
  repeat split; try assumption.
  - destruct (is_bottleneck r), (is_oversized r), (is_stopped r);
      simpl in *; try discriminate; lia.
  - intros [H1 H2]. apply filter_In in H1, H2.
    destruct H1 as [_ H1], H2 as [_ H2]. rewrite H1, H2 in Hbo. discriminate.
  - intros [H1 H2]. apply filter_In in H1, H2.
    destruct H1 as [_ H1], H2 as [_ H2]. rewrite H1, H2 in Hsb. discriminate.
  - intros [H1 H2]. apply filter_In in H1, H2.
    destruct H1 as [_ H1], H2 as [_ H2]. rewrite H1, H2 in Hso. discriminate.
Qed.

(** ** Metric lookups *)

(** A metric lookup writes nothing. *)
Lemma get_metric_avg_world (cw : CloudWatchClient) (namespace metric_name : string)
    (dims : list Dimension) (start end_ period : Z) (w : World) :
  get_metric_avg cw namespace metric_name dims start end_ period w
  = (fst (get_metric_avg cw namespace metric_name dims start end_ period w), w).
Proof.
  unfold get_metric_avg, try_except, bind, lift, ret.
  destruct (get_metric_statistics cw namespace metric_name dims start end_ period)
    as [[[|dp dps]|]|e]; simpl; try reflexivity.
  - destruct (averages _); reflexivity.
  - destruct (client_or_botocore e); reflexivity.
Qed.

(** Only the two client error classes are handled; any other exception
    leaves [get_metric_avg]. *)
Lemma get_metric_avg_other_exception (cw : CloudWatchClient)
    (namespace metric_name : string) (dims : list Dimension)
    (start end_ period : Z) (text : string) (w : World) :
  get_metric_statistics cw namespace metric_name dims start end_ period
  = Raise (Exn OtherException text) ->
  get_metric_avg cw namespace metric_name dims start end_ period w
  = (Raise (Exn OtherException text), w).
Proof.
  intros H. unfold get_metric_avg, try_except, bind, lift. rewrite H.
  reflexivity.
Qed.

(** C6, as stated, on a client whose lookup fails with an exception that is
    neither a [ClientError] nor a [BotoCoreError]: the failure leaves
    [get_metric_avg], which therefore differs from the run on an answer
    without datapoints, and it ends the whole run. *)
Lemma get_metric_avg_propagates_other :
  get_metric_avg crashing_cw "AWS/ECS" "CPUUtilization" [] 0 3600000000 60
    empty_world
  = (Raise (Exn OtherException "unexpected failure inside the client"), empty_world)
  /\ get_metric_avg silent_cw "AWS/ECS" "CPUUtilization" [] 0 3600000000 60
       empty_world
     = (Ok None, empty_world)
  /\ get_metric_avg crashing_cw "AWS/ECS" "CPUUtilization" [] 0 3600000000 60
       empty_world
     <> get_metric_avg silent_cw "AWS/ECS" "CPUUtilization" [] 0 3600000000 60
          empty_world
  /\ fst (@main sample_runtime crashing_env sample_args empty_world)
     = Raise (Exn OtherException "unexpected failure inside the client").
Proof.
  repeat split; try reflexivity. vm_compute. discriminate.
Qed.

(** C6, amended: when the CloudWatch client fails a lookup with a
    [ClientError] or a [BotoCoreError], [get_metric_avg] returns normally
    with an absent value and writes nothing, exactly as it does for an
    answer without datapoints; the absent value classifies as ["no_data"]. *)
Theorem get_metric_avg_swallows_failure (cw : CloudWatchClient)
    (namespace metric_name : string) (dims : list Dimension)
    (start end_ period : Z) (err : exn) (w : World) :
  get_metric_statistics cw namespace metric_name dims start end_ period
  = Raise err ->
  client_or_botocore err = true ->
  get_metric_avg cw namespace metric_name dims start end_ period w
  = (Ok None, w)
  /\ (forall cw0 : CloudWatchClient,
        get_metric_statistics cw0 namespace metric_name dims start end_ period
        = Ok (Some []) ->
        get_metric_avg cw namespace metric_name dims start end_ period w
        = get_metric_avg cw0 namespace metric_name dims start end_ period w)
  /\ (forall low_max med_max : float,
        match fst (get_metric_avg cw namespace metric_name dims start end_
                     period w) with
        | Ok v => classify v low_max med_max = "no_data"
        | Raise _ => False
        end).
Proof.
  intros Hfail Hclass.
  assert (Hres : get_metric_avg cw namespace metric_name dims start end_ period w
                 = (Ok None, w)).
  { unfold get_metric_avg, try_except, bind, lift. rewrite Hfail, Hclass.
    reflexivity. }
  split; [exact Hres|]. split.
  - intros cw0 Hempty. rewrite Hres.
    unfold get_metric_avg, try_except, bind, lift. rewrite Hempty. reflexivity.
  - intros low_max med_max. rewrite Hres. reflexivity.
Qed.

Lemma get_metric_avg_swallows_failure_witness :
  get_metric_avg sample_cw "ECS/ContainerInsights" "MemoryUtilization" []
    0 3600000000 60 empty_world
  = (Ok None, empty_world)
  /\ get_metric_avg failing_cw "AWS/ECS" "CPUUtilization" [] 0 3600000000 60
       empty_world
     = get_metric_avg silent_cw "AWS/ECS" "CPUUtilization" [] 0 3600000000 60
         empty_world.
Proof.
  split.
  - exact (proj1 (get_metric_avg_swallows_failure sample_cw
                    "ECS/ContainerInsights" "MemoryUtilization" [] 0 3600000000
                    60 (Exn ClientError "Throttling") empty_world
                    eq_refl eq_refl)).
  - exact (proj1 (proj2 (get_metric_avg_swallows_failure failing_cw
                    "AWS/ECS" "CPUUtilization" [] 0 3600000000 60
                    (Exn BotoCoreError "Could not connect to the endpoint URL")
                    empty_world eq_refl eq_refl)) silent_cw eq_refl).
Defined.

(** ** Metric resolver *)

(** Runs one lookup of the goal: its result is named [r] and the world is
    left as it was. *)
Ltac lookup_step ns m :=
  match goal with
  | |- context [get_metric_avg ?cw ns m ?d ?s ?e ?p ?w] =>
      let H := fresh "Hw" in
      let w1 := fresh "w1" in
      pose proof (get_metric_avg_world cw ns m d s e p w) as H;
      destruct (get_metric_avg cw ns m d s e p w) as [r w1];
      simpl in H; injection H as H; subst w1
  end.

Lemma fetch_cpu_mem_pct_unfold (cw : CloudWatchClient)
    (cluster_name service_name : string) (start end_ : Z) (w : World) :
  let source := lookup cw cluster_name service_name start end_ w in
  fetch_cpu_mem_pct cw cluster_name service_name start end_ w
  = match source "ECS/ContainerInsights" "CpuUtilization" with
    | Raise e => (Raise e, w)
    | Ok cpu =>
        match source "ECS/ContainerInsights" "MemoryUtilization" with
        | Raise e => (Raise e, w)
        | Ok mem =>
            if is_some cpu || is_some mem
            then (Ok (cpu, mem, "ECS/ContainerInsights"), w)
            else
              match source "AWS/ECS" "CPUUtilization" with
              | Raise e => (Raise e, w)
              | Ok cpu2 =>
                  match source "AWS/ECS" "MemoryUtilization" with
                  | Raise e => (Raise e, w)
                  | Ok mem2 =>
                      if is_some cpu2 || is_some mem2
                      then (Ok (cpu2, mem2, "AWS/ECS"), w)
                      else (Ok (None, None, "no_data"), w)
                  end
              end
        end
    end.
Proof.
  unfold lookup, fetch_cpu_mem_pct, bind. cbv zeta.
  lookup_step "ECS/ContainerInsights" "CpuUtilization".
  destruct r as [cpu|e]; [|reflexivity].
  lookup_step "ECS/ContainerInsights" "MemoryUtilization".
  destruct r as [mem|e]; [|reflexivity].
  simpl. destruct (is_some cpu || is_some mem); [reflexivity|].
  lookup_step "AWS/ECS" "CPUUtilization".
  destruct r as [cpu2|e]; [|reflexivity].
  lookup_step "AWS/ECS" "MemoryUtilization".
  destruct r as [mem2|e]; [|reflexivity].
  simpl. destruct (is_some cpu2 || is_some mem2); reflexivity.
Qed.

(** C4: let the first source (Container Insights) yield [a_cpu] and [a_mem].
    If one of them is present, the resolver returns both with the label of
    the first source, whatever the second source would do.  If both are
    absent and the second source (AWS/ECS) yields [b_cpu] and [b_mem], the
    resolver returns these with the label of the second source as soon as
    one is present, and two absent values with the label ["no_data"] when
    both are absent.  The label ["no_data"] is returned only when all four
    lookups yield an absent value. *)
Theorem fetch_cpu_mem_pct_sources (cw : CloudWatchClient)
    (cluster_name service_name : string) (start end_ : Z) (w : World)
    (a_cpu a_mem : option float) :
  let source := lookup cw cluster_name service_name start end_ w in
  let fetch := fetch_cpu_mem_pct cw cluster_name service_name start end_ in
  source "ECS/ContainerInsights" "CpuUtilization" = Ok a_cpu ->
  source "ECS/ContainerInsights" "MemoryUtilization" = Ok a_mem ->
  (is_some a_cpu || is_some a_mem = true ->
   fetch w = (Ok (a_cpu, a_mem, "ECS/ContainerInsights"), w))
  /\ (forall b_cpu b_mem : option float,
        a_cpu = None -> a_mem = None ->
        source "AWS/ECS" "CPUUtilization" = Ok b_cpu ->
        source "AWS/ECS" "MemoryUtilization" = Ok b_mem ->
        (is_some b_cpu || is_some b_mem = true ->
         fetch w = (Ok (b_cpu, b_mem, "AWS/ECS"), w))
        /\ (b_cpu = None -> b_mem = None ->
            fetch w = (Ok (None, None, "no_data"), w)))
  /\ (forall (cpu mem : option float) (w' : World),
        fetch w = (Ok (cpu, mem, "no_data"), w') ->
        cpu = None /\ mem = None /\ a_cpu = None /\ a_mem = None
        /\ source "AWS/ECS" "CPUUtilization" = Ok None
        /\ source "AWS/ECS" "MemoryUtilization" = Ok None).
Proof.
  intros source fetch Hcpu Hmem.
  pose proof (fetch_cpu_mem_pct_unfold cw cluster_name service_name start end_ w)
    as Hfetch.
  cbv zeta in Hfetch. fold source in Hfetch. fold fetch in Hfetch.
  rewrite Hcpu, Hmem in Hfetch.
  split; [|split].
  - intros Hany. rewrite Hfetch, Hany. reflexivity.
  - intros b_cpu b_mem -> -> Hcpu2 Hmem2. simpl in Hfetch.
    rewrite Hcpu2, Hmem2 in Hfetch. split.
    + intros Hany. rewrite Hfetch, Hany. reflexivity.
    + intros -> ->. exact Hfetch.
  - intros cpu mem w' Hres. rewrite Hfetch in Hres.
    destruct (is_some a_cpu || is_some a_mem) eqn:Ha; [discriminate|].
    destruct a_cpu, a_mem; try discriminate.
    destruct (source "AWS/ECS" "CPUUtilization") as [b_cpu|]; [|discriminate].
    destruct (source "AWS/ECS" "MemoryUtilization") as [b_mem|]; [|discriminate].
    destruct (is_some b_cpu || is_some b_mem) eqn:Hb; [discriminate|].
    destruct b_cpu, b_mem; try discriminate.
    injection Hres as <- <- _. repeat split.
Qed.

Lemma fetch_cpu_mem_pct_sources_witness :
  fetch_cpu_mem_pct sample_cw "api" "web" 0 86400000000 empty_world
  = (Ok (Some (PyFloat.of_Z 75), None, "ECS/ContainerInsights"), empty_world)
  /\ fetch_cpu_mem_pct silent_cw "api" "web" 0 86400000000 empty_world
     = (Ok (None, None, "no_data"), empty_world).
Proof.
  split.
  - exact (proj1 (fetch_cpu_mem_pct_sources sample_cw "api" "web" 0 86400000000
                    empty_world (Some (PyFloat.of_Z 75)) None eq_refl eq_refl)
             eq_refl).
  - exact (proj2 (proj1 (proj2 (fetch_cpu_mem_pct_sources silent_cw "api" "web"
                                  0 86400000000 empty_world None None
                                  eq_refl eq_refl))
                    None None eq_refl eq_refl eq_refl eq_refl)
             eq_refl eq_refl).
Defined.

(** ** Rows built by the collector *)

Lemma post_ret {A : Type} (a : A) (Q : A -> Prop) : Q a -> post (ret a) Q.
Proof. intros H w w' b [= <- _]. exact H. Qed.

Lemma post_bind {A B : Type} (m : M A) (k : A -> M B) (P : A -> Prop)
    (Q : B -> Prop) :
  post m P -> (forall a, P a -> post (k a) Q) -> post (bind m k) Q.
Proof.
  intros Hm Hk w w' b. unfold bind.
  destruct (m w) as [[a|e] w1] eqn:E; [|discriminate].
  intros Hb. exact (Hk a (Hm _ _ _ E) _ _ _ Hb).
Qed.

Lemma post_any {A : Type} (m : M A) : post m (fun _ => True).
Proof. intros w w' a _. exact I. Qed.

Lemma post_try_except {A : Type} (body : M A) (catches : exn -> bool)
    (handler : exn -> M A) (Q : A -> Prop) :
  post body Q -> (forall e, post (handler e) Q) ->
  post (try_except body catches handler) Q.
Proof.
  intros Hb Hh w w' a. unfold try_except.
  destruct (body w) as [[b|e] w1] eqn:E.
  - intros [= <- <-]. exact (Hb _ _ _ E).
  - destruct (catches e); [|discriminate]. apply Hh.
Qed.

Lemma post_for_fold {A S : Type} (l : list A) (body : S -> A -> M S)
    (Inv : S -> Prop) :
  (forall s x, Inv s -> post (body s x) Inv) ->
  forall s, Inv s -> post (for_fold l s body) Inv.
Proof.
  intros Hbody. induction l as [|x l IH]; intros s Hs; simpl.
  - now apply post_ret.
  - eapply post_bind; [apply Hbody, Hs|]. intros s' Hs'. now apply IH.
Qed.

Lemma service_row_derived `{PyRuntime} (ecs : EcsClient) (cw : CloudWatchClient)
    (account region cluster_name : string) (start end_ : Z) (args : Args.t)
    (svc : ServiceDesc) :
  post (service_row ecs cw account region cluster_name start end_ args svc)
       (row_derived args).
Proof.
  unfold service_row.
  eapply post_bind; [apply post_any|]. intros [[[cu mm] vc] mg] _.
  eapply post_bind; [apply post_any|]. intros [[cpu mem] source] _.
  apply post_ret. repeat split.
Qed.

Lemma cluster_rows_derived `{PyRuntime} (ecs : EcsClient) (cw : CloudWatchClient)
    (profile region : string) (start end_ : Z) (args : Args.t)
    (rows : list ServiceRow) (c_arn : string) :
  Forall (row_derived args) rows ->
  post (cluster_rows ecs cw profile region start end_ args rows c_arn)
       (Forall (row_derived args)).
Proof.
  intros Hrows. unfold cluster_rows.
  eapply post_bind; [apply post_any|]. intros [[|arn arns]|] _;
    try now apply post_ret.
  eapply post_bind; [apply post_any|]. intros [services|] _;
    try now apply post_ret.
  apply post_for_fold; [|exact Hrows].
  intros rows' svc Hrows'.
  eapply post_bind; [apply service_row_derived|]. intros row Hrow.
  apply post_ret. apply Forall_app. split; [exact Hrows'|].
  constructor; [exact Hrow|constructor].
Qed.

(** C8: every row that [collect_for_profile] returns has its CPU level equal
    to [classify] of its CPU percentage under the CPU thresholds of the
    command line, its memory level equal to [classify] of its memory
    percentage under the memory thresholds, and its recommendation equal to
    [recommendation] of these two levels and its running count. *)
Theorem collect_for_profile_rows_derived `{PyRuntime} (env : Env)
    (profile region : string) (start end_ : Z) (args : Args.t)
    (w w' : World) (rows : list ServiceRow) :
  collect_for_profile env profile region start end_ args w = (Ok rows, w') ->
  Forall (fun r =>
            cpu_level r
            = classify (cpu_pct r) (Args.cpu_low_max args)
                (Args.cpu_med_max args)
            /\ mem_level r
               = classify (mem_pct r) (Args.mem_low_max args)
                   (Args.mem_med_max args)
            /\ action r
               = recommendation (cpu_level r) (mem_level r) (running r))
         rows.
Proof.
  revert w w' rows.
  change (post (collect_for_profile env profile region start end_ args)
               (Forall (row_derived args))).
  unfold collect_for_profile.
  eapply post_bind; [apply post_any|]. intros [[ecs cw]|] _;
    [|apply post_ret; constructor].
  eapply post_bind; [apply post_any|]. intros [cluster_arns|] _;
    [|apply post_ret; constructor].
  apply post_for_fold; [|constructor].
  intros rows c_arn Hrows. now apply cluster_rows_derived.
Qed.

Lemma collect_for_profile_rows_derived_witness :
  exists r : ServiceRow,
    @collect_for_profile sample_runtime sample_env "company-dev" "us-east-1"
      0 86400000000 sample_args empty_world
    = (Ok [r], empty_world)
    /\ cpu_pct r = Some (PyFloat.of_Z 75)
    /\ cpu_level r = "high"
    /\ mem_level r = "no_data"
    /\ action r = msg_incomplete
    /\ Forall (fun r =>
            cpu_level r
            = classify (cpu_pct r) (Args.cpu_low_max sample_args)
                (Args.cpu_med_max sample_args)
            /\ mem_level r
               = classify (mem_pct r) (Args.mem_low_max sample_args)
                   (Args.mem_med_max sample_args)
            /\ action r
               = recommendation (cpu_level r) (mem_level r) (running r))
         [r].
Proof.
  eexists. split; [vm_compute; reflexivity|].
  repeat (split; [reflexivity|]).
  eapply (@collect_for_profile_rows_derived sample_runtime sample_env
            "company-dev" "us-east-1" 0 86400000000 sample_args empty_world).
  vm_compute. reflexivity.
Defined.

(** ** Sorting *)

Section SortFacts.
Context {A : Type} (key : A -> float).

Lemma insert_by_perm (x : A) (l : list A) :
  Permutation (insert_by PyFloat.lt key x l) (x :: l).
Proof.
  induction l as [|y l IH]; simpl; [reflexivity|].
  destruct (key y <?. key x); [|reflexivity].
  rewrite IH. apply perm_swap.
Qed.

Lemma sort_by_perm (l : list A) : Permutation (sort_by PyFloat.lt key l) l.
Proof.
  induction l as [|x l IH]; simpl; [reflexivity|].
  rewrite insert_by_perm. now constructor.
Qed.

Lemma sorted_reverse_perm (l : list A) :
  Permutation (sorted_reverse PyFloat.lt key l) l.
Proof.
  unfold sorted_reverse.
  rewrite <- Permutation_rev, sort_by_perm, <- Permutation_rev. reflexivity.
Qed.

Lemma insert_by_sorted (x : A) (l : list A) :
  numeric_key key x -> Forall (numeric_key key) l ->
  StronglySorted (key_le key) l ->
  StronglySorted (key_le key) (insert_by PyFloat.lt key x l).
Proof.
  intros Hx Hl Hs. induction Hs as [|y l Hs IH Hy]; simpl.
  - repeat constructor.
  - inversion Hl as [|? ? Hny Hnl]; subst.
    destruct (key y <?. key x) eqn:Hlt.
    + constructor; [now apply IH|].
      eapply Permutation_Forall; [symmetry; apply insert_by_perm|].
      constructor; [now apply lt_le|exact Hy].
    + assert (Hxy : key_le key x y) by now apply not_lt_le.
      constructor; [now constructor|].
      constructor; [exact Hxy|].
      eapply Forall_impl; [|exact Hy].
      intros z Hz. exact (le_trans _ _ _ Hxy Hz).
Qed.

Lemma sort_by_sorted (l : list A) :
  Forall (numeric_key key) l ->
  StronglySorted (key_le key) (sort_by PyFloat.lt key l).
Proof.
  induction l as [|x l IH]; intros Hl; simpl; [constructor|].
  inversion Hl; subst.
  apply insert_by_sorted; auto.
  eapply Permutation_Forall; [symmetry; apply sort_by_perm|assumption].
Qed.

Lemma sorted_snoc (l : list A) (x : A) :
  StronglySorted (key_ge key) l -> Forall (fun y => key_ge key y x) l ->
  StronglySorted (key_ge key) (l ++ [x]).
Proof.
  induction l as [|y l IH]; simpl; intros Hs Hall.
  - repeat constructor.
  - inversion Hs; subst. inversion Hall; subst.
    constructor; [now apply IH|].
    apply Forall_app. split; [assumption|now constructor].
Qed.

Lemma sorted_rev (l : list A) :
  StronglySorted (key_le key) l -> StronglySorted (key_ge key) (rev l).
Proof.
  induction 1 as [|x l Hs IH Hx]; simpl; [constructor|].
  apply sorted_snoc; [exact IH|].
  apply Forall_rev. exact Hx.
Qed.

(** On keys that are numbers, [sorted(l, key=key, reverse=True)] is a
    rearrangement of [l] in which no element has a smaller key than a later
    one. *)
Lemma sorted_reverse_descending (l : list A) :
  Forall (numeric_key key) l ->
  StronglySorted (key_ge key) (sorted_reverse PyFloat.lt key l).
Proof.
  intros Hl. apply sorted_rev, sort_by_sorted, Forall_rev, Hl.
Qed.

End SortFacts.

Lemma no_nan_key {A : Type} (key : A -> float) (l : list A) :
  Forall (numeric_key key) l -> existsb PyFloat.is_nan (map key l) = false.
Proof.
  induction 1 as [|a l Ha _ IH]; simpl; [reflexivity|].
  unfold numeric_key in Ha. now rewrite Ha, IH.
Qed.

(** Without a NaN among the keys, [sorted(l, key=key, reverse=True)] is the
    stable descending sort. *)
Lemma sorted_key_reverse_numbers `{PyRuntime} {A : Type} (key : A -> float)
    (l : list A) :
  Forall (numeric_key key) l ->
  sorted_key_reverse key l = sorted_reverse PyFloat.lt key l.
Proof.
  intros Hl. unfold sorted_key_reverse. now rewrite no_nan_key.
Qed.

Lemma slice_to_firstn {A : Type} (l : list A) (top : Z) :
  0 <= top -> slice_to l top = firstn (Z.to_nat top) l.
Proof.
  intros H. unfold slice_to.
  destruct (Z.leb_spec 0 top); [reflexivity|lia].
Qed.

(** ** What a computation prints *)

Lemma prints_ret : prints (ret tt) [].
Proof. intros [out err fs]. unfold ret. simpl. now rewrite List.app_nil_r. Qed.

Lemma prints_print (s : string) : prints (print s) [s].
Proof. intros w. reflexivity. Qed.

Lemma prints_seq (m k : M unit) (l1 l2 : list string) :
  prints m l1 -> prints k l2 -> prints (m ;;; k) (l1 ++ l2).
Proof.
  intros Hm Hk w. unfold bind. rewrite Hm, Hk. simpl.
  now rewrite <- List.app_assoc.
Qed.

Lemma prints_for_each {A : Type} (l : list A) (f : A -> string) :
  prints (for_each l (fun x => print (f x))) (map f l).
Proof.
  induction l as [|x l IH]; simpl; [apply prints_ret|].
  apply (prints_seq _ _ [f x]); [apply prints_print|exact IH].
Qed.

Lemma print_summary_prints `{PyRuntime} (rows : list ServiceRow) (top : Z) :
  prints (print_summary rows top)
    (summary_layout rows
       (slice_to (sorted_key_reverse k_cpu (filter is_bottleneck rows)) top)
       (slice_to (sorted_key_reverse k_mem (filter is_bottleneck rows)) top)
       (slice_to (filter is_oversized rows) top)
       (slice_to (filter is_stopped rows) top)).
Proof.
  unfold print_summary, summary_layout, summary_counts.
  repeat (apply (prints_seq _ _ [_]); [apply prints_print|]).
  apply prints_seq.
  { destruct (nonempty (filter is_bottleneck rows)); [|apply prints_ret].
    apply (prints_seq _ _ [_]); [apply prints_print|].
    apply prints_seq; [apply prints_for_each|].
    apply (prints_seq _ _ [_]); [apply prints_print|].
    apply prints_for_each. }
  apply prints_seq.
  { destruct (nonempty (filter is_oversized rows)); [|apply prints_ret].
    apply (prints_seq _ _ [_]); [apply prints_print|].
    apply prints_for_each. }
  destruct (nonempty (filter is_stopped rows)); [|apply prints_ret].
  apply (prints_seq _ _ [_]); [apply prints_print|].
  apply prints_for_each.
Qed.

(** ** Summary *)

(** C5, as stated, on two over-provisioned services collected in the order
    [a] (10 %, 10 %), [b] (20 %, 20 %) with a top count of 1: the section of
    the over-provisioned services lists [a], the first one collected, although
    [b] has the greater CPU and the greater memory percentage; the group is
    not ranked by either. *)
Lemma print_summary_oversized_unranked :
  let a := sample_row "a" (pct 10) (pct 10) 1 in
  let b := sample_row "b" (pct 20) (pct 20) 1 in
  filter is_oversized [a; b] = [a; b]
  /\ (k_cpu a <?. k_cpu b) = true
  /\ (k_mem a <?. k_mem b) = true
  /\ @print_summary sample_runtime [a; b] 1 empty_world
     = (Ok tt,
        mkWorld
          (summary_counts [a; b]
           ++ [ (nl ++ "--- Top over-provisioned (low CPU + low memory) ---")%string;
                @line_oversized sample_runtime a ])%list
          [] [])
  /\ @print_summary sample_runtime [a; b] 1 empty_world
     <> (Ok tt,
         mkWorld
           (summary_counts [a; b]
            ++ [ (nl ++ "--- Top over-provisioned (low CPU + low memory) ---")%string;
                 @line_oversized sample_runtime b ])%list
           [] []).
Proof.
  repeat split; try reflexivity. vm_compute. discriminate.
Qed.

Lemma filter_spec_bottleneck (r : ServiceRow) :
  is_bottleneck r = true
  <-> 0 < running r /\ (cpu_level r = "high" \/ mem_level r = "high").
Proof.
  unfold is_bottleneck.
  rewrite andb_true_iff, orb_true_iff, Z.ltb_lt, !String.eqb_eq. reflexivity.
Qed.

Lemma filter_spec_oversized (r : ServiceRow) :
  is_oversized r = true
  <-> 0 < running r /\ cpu_level r = "low" /\ mem_level r = "low".
Proof.
  unfold is_oversized.
  rewrite !andb_true_iff, Z.ltb_lt, !String.eqb_eq. tauto.
Qed.

(** C5, amended: the summary takes three groups from the rows, in collection
    order: bottlenecks (running > 0 and a level that is high),
    over-provisioned (running > 0 and both levels low) and stopped
    (running = 0).  For a top count [N >= 0] and percentages that are
    numbers, it prints the first [N] bottlenecks in descending order of CPU
    percentage and the first [N] in descending order of memory percentage,
    an absent percentage counting as -1, which is below every present
    percentage above -1; of the over-provisioned and of the stopped rows
    it prints the first [N] in collection order. *)
Theorem print_summary_groups `{PyRuntime} (rows : list ServiceRow) (top : Z)
    (w : World) :
  0 <= top ->
  Forall (fun r => PyFloat.is_nan (k_cpu r) = false
                   /\ PyFloat.is_nan (k_mem r) = false) rows ->
  let n := Z.to_nat top in
  let bottlenecks := filter is_bottleneck rows in
  let oversized := filter is_oversized rows in
  let stopped := filter is_stopped rows in
  (forall r, In r bottlenecks <->
             In r rows /\ 0 < running r
             /\ (cpu_level r = "high" \/ mem_level r = "high"))
  /\ (forall r, In r oversized <->
                In r rows /\ 0 < running r
                /\ cpu_level r = "low" /\ mem_level r = "low")
  /\ (forall r, In r stopped <-> In r rows /\ running r = 0)
  /\ (forall r (v : float),
        cpu_pct r = None -> (minus_one <?. v) = true -> (k_cpu r <?. v) = true)
  /\ (forall r (v : float),
        mem_pct r = None -> (minus_one <?. v) = true -> (k_mem r <?. v) = true)
  /\ exists by_cpu by_mem : list ServiceRow,
       Permutation by_cpu bottlenecks
       /\ StronglySorted (fun r r' => (k_cpu r' <=?. k_cpu r) = true) by_cpu
       /\ Permutation by_mem bottlenecks
       /\ StronglySorted (fun r r' => (k_mem r' <=?. k_mem r) = true) by_mem
       /\ print_summary rows top w
          = (Ok tt,
             mkWorld
               (stdout w
                ++ summary_layout rows (firstn n by_cpu) (firstn n by_mem)
                     (firstn n oversized) (firstn n stopped))
               (stderr w) (files w)).
Proof.
  intros Htop Hnum n bottlenecks oversized stopped.
  split; [|split; [|split; [|split; [|split]]]].
  - intros r. unfold bottlenecks.
    rewrite filter_In, filter_spec_bottleneck. reflexivity.
  - intros r. unfold oversized.
    rewrite filter_In, filter_spec_oversized. reflexivity.
  - intros r. unfold stopped, is_stopped. rewrite filter_In, Z.eqb_eq.
    reflexivity.
  - intros r v Hr Hv. unfold k_cpu. rewrite Hr. exact Hv.
  - intros r v Hr Hv. unfold k_mem. rewrite Hr. exact Hv.
  - exists (sorted_reverse PyFloat.lt k_cpu bottlenecks),
           (sorted_reverse PyFloat.lt k_mem bottlenecks).
    assert (Hb : Forall (fun r => PyFloat.is_nan (k_cpu r) = false
                                  /\ PyFloat.is_nan (k_mem r) = false)
                        bottlenecks).
    { apply Forall_forall. intros r Hr. apply filter_In in Hr.
      rewrite Forall_forall in Hnum. now apply Hnum. }
    assert (Hcpu : Forall (numeric_key k_cpu) bottlenecks)
      by (eapply Forall_impl; [|exact Hb]; now intros r [? _]).
    assert (Hmem : Forall (numeric_key k_mem) bottlenecks)
      by (eapply Forall_impl; [|exact Hb]; now intros r [_ ?]).
    split; [apply sorted_reverse_perm|].
    split; [now apply (sorted_reverse_descending k_cpu)|].
    split; [apply sorted_reverse_perm|].
    split; [now apply (sorted_reverse_descending k_mem)|].
    rewrite (print_summary_prints rows top w).
    fold bottlenecks.
    rewrite (sorted_key_reverse_numbers k_cpu bottlenecks Hcpu),
      (sorted_key_reverse_numbers k_mem bottlenecks Hmem).
    rewrite !slice_to_firstn by exact Htop. reflexivity.
Qed.

Lemma print_summary_groups_witness :
  exists by_cpu by_mem : list ServiceRow,
    Permutation by_cpu (filter is_bottleneck sample_rows)
    /\ StronglySorted (fun r r' => (k_cpu r' <=?. k_cpu r) = true) by_cpu
    /\ Permutation by_mem (filter is_bottleneck sample_rows)
    /\ StronglySorted (fun r r' => (k_mem r' <=?. k_mem r) = true) by_mem
    /\ @print_summary sample_runtime sample_rows 1 empty_world
       = (Ok tt,
          mkWorld
            (@summary_layout sample_runtime sample_rows
               (firstn 1 by_cpu) (firstn 1 by_mem)
               [sample_row "batch" (pct 10) (pct 10) 2]
               [sample_row "old" None None 0])
            [] []).
Proof.
  assert (Htop : 0 <= 1) by lia.
  assert (Hnum : Forall (fun r => PyFloat.is_nan (k_cpu r) = false
                                  /\ PyFloat.is_nan (k_mem r) = false)
                   sample_rows).
  { repeat constructor. }
  exact (proj2 (proj2 (proj2 (proj2 (proj2
           (@print_summary_groups sample_runtime sample_rows 1 empty_world
              Htop Hnum)))))).
Defined.

Example print_summary_sample :
  snd (@print_summary sample_runtime sample_rows 1 empty_world)
  = mkWorld
      [ (nl ++ "=== SUMMARY ===")%string;
        "Total services: 4";
        "Bottlenecks (high CPU or high memory, running>0): 2";
        "Over-provisioned (low CPU and low memory, running>0): 1";
        "Running=0: 1";
        (nl ++ "--- Top bottlenecks by CPU% ---")%string;
        "company-dev | api/db | CPU 90.0% (high) | Mem None% (no_data)";
        (nl ++ "--- Top bottlenecks by Memory% ---")%string;
        "company-dev | api/web | Mem 20.0% (low) | CPU 75.0% (high)";
        (nl ++ "--- Top over-provisioned (low CPU + low memory) ---")%string;
        "company-dev | api/batch | CPU 10.0% | Mem 10.0%";
        (nl ++ "--- Running=0 (cleanup / on-demand candidates) ---")%string;
        "company-dev | api/old | desired=0 running=0 pending=0" ]
      [] [].
Proof. vm_compute. reflexivity. Qed.

(** ** Files *)












(** ** Exit status *)



Lemma report_no_rows `{PyRuntime} (env : Env) (args : Args.t) (w : World) :
  report env args [] w
  = (Ok 2, mkWorld (stdout w) (stderr w ++ [no_services_message]) (files w)).
Proof. reflexivity. Qed.


(** An output path that cannot be opened ends the report with the exception
    of [open], before anything is written. *)
Lemma report_unwritable `{PyRuntime} (env : Env) (args : Args.t)
    (rows : list ServiceRow) (e : exn) (w : World) :
  rows <> [] ->
  Args.output args <> "-" ->
  open_for_write env (Args.output args) = Raise e ->
  report env args rows w = (Raise e, w).
Proof.
  intros Hrows Hpath Hopen.
  destruct rows as [|r rows]; [congruence|].
  apply String.eqb_neq in Hpath.
  unfold report, write_csv, bind, lift. rewrite Hpath, Hopen. reflexivity.
Qed.




(** ** Normal return *)

Lemma returns_ret {A : Type} (a : A) : returns (ret a).
Proof. intros w. now exists a, w. Qed.

Lemma returns_print (s : string) : returns (print s).
Proof. intros w. eexists _, _. reflexivity. Qed.

Lemma returns_eprint (s : string) : returns (eprint s).
Proof. intros w. eexists _, _. reflexivity. Qed.

Lemma returns_bind {A B : Type} (m : M A) (k : A -> M B) (P : A -> Prop) :
  returns m -> post m P -> (forall a, P a -> returns (k a)) ->
  returns (bind m k).
Proof.
  intros Hm Hp Hk w. unfold bind.
  destruct (Hm w) as (a & w1 & E). rewrite E.
  exact (Hk a (Hp _ _ _ E) w1).
Qed.

Lemma returns_try_any {A : Type} (body : M A) (handler : exn -> M A) :
  (forall e, returns (handler e)) ->
  returns (try_except body any_exception handler).
Proof.
  intros Hh w. unfold try_except.
  destruct (body w) as [[a|e] w1]; [now exists a, w1|].
  simpl. apply Hh.
Qed.

Lemma returns_for_fold {A S : Type} (l : list A) (body : S -> A -> M S) :
  (forall s x, returns (body s x)) -> forall s, returns (for_fold l s body).
Proof.
  intros Hbody. induction l as [|x l IH]; intros s; simpl.
  - apply returns_ret.
  - apply (returns_bind _ _ (fun _ => True));
      [apply Hbody|apply post_any|intros s' _; apply IH].
Qed.

Lemma returns_get_metric_avg (cw : CloudWatchClient)
    (namespace metric_name : string) (dims : list Dimension)
    (start end_ period : Z) :
  well_behaved cw ->
  returns (get_metric_avg cw namespace metric_name dims start end_ period).
Proof.
  intros Hcw w. unfold get_metric_avg, try_except, bind, lift.
  destruct (get_metric_statistics cw namespace metric_name dims start end_ period)
    as [[[|dp dps]|]|e] eqn:E; simpl.
  - eexists _, _. reflexivity.
  - destruct (averages _); eexists _, _; reflexivity.
  - eexists _, _. reflexivity.
  - rewrite (Hcw _ _ _ _ _ _ _ E). eexists _, _. reflexivity.
Qed.

Ltac returns_step :=
  first
    [ apply returns_get_metric_avg; assumption
    | apply returns_ret | apply returns_print | apply returns_eprint
    | match goal with
      | |- returns (try_except _ any_exception _) =>
          apply returns_try_any; intros ?
      end
    | apply returns_for_fold; intros ? ?
    | apply (returns_bind _ _ (fun _ => True)); [|apply post_any|intros ? _]
    | match goal with
      | |- returns (match ?x with _ => _ end) => destruct x
      end ].

Lemma returns_cluster_rows `{PyRuntime} (ecs : EcsClient) (cw : CloudWatchClient)
    (profile region : string) (start end_ : Z) (args : Args.t)
    (rows : list ServiceRow) (c_arn : string) :
  well_behaved cw ->
  returns (cluster_rows ecs cw profile region start end_ args rows c_arn).
Proof.
  intros Hcw.
  unfold cluster_rows, service_row, task_sizing, fetch_cpu_mem_pct.
  repeat returns_step.
Qed.

Lemma post_lift {A : Type} (r : result A) : post (lift r) (fun a => r = Ok a).
Proof. intros w w' a [= -> _]. reflexivity. Qed.

(** With clients that fail only with their own error classes, the
    collection for a profile always returns its rows. *)
Lemma returns_collect_for_profile `{PyRuntime} (env : Env)
    (profile region : string) (start end_ : Z) (args : Args.t) :
  (forall p r ecs cw, boto3_session env p r = Ok (ecs, cw) -> well_behaved cw) ->
  returns (collect_for_profile env profile region start end_ args).
Proof.
  intros Henv. unfold collect_for_profile.
  apply (returns_bind _ _
           (fun s => forall ecs cw, s = Some (ecs, cw) -> well_behaved cw)).
  - repeat returns_step.
  - apply post_try_except.
    + eapply post_bind; [apply post_lift|].
      intros [ecs cw] Hs. apply post_ret. intros ecs' cw' [= <- <-].
      exact (Henv _ _ _ _ Hs).
    + intros e. eapply post_bind; [apply post_any|]. intros _ _.
      apply post_ret. discriminate.
  - intros [[ecs cw]|] Hs; [|apply returns_ret].
    specialize (Hs ecs cw eq_refl).
    apply (returns_bind _ _ (fun _ => True)); [|apply post_any|].
    + repeat returns_step.
    + intros [cluster_arns|] _; [|apply returns_ret].
      apply returns_for_fold. intros rows c_arn.
      now apply returns_cluster_rows.
Qed.



(** ** Batches *)

Lemma chunks_aux_spec {A : Type} (n : nat) :
  (1 <= n)%nat ->
  forall (fuel : nat) (lst : list A),
    (List.length lst <= fuel)%nat ->
    List.concat (chunks_aux fuel n lst) = lst
    /\ Forall (fun c => (1 <= List.length c <= n)%nat) (chunks_aux fuel n lst).
Proof.
  intros Hn. induction fuel as [|fuel IH]; intros lst Hlen.
  - destruct lst; [split; [reflexivity|constructor]|simpl in Hlen; lia].
  - destruct lst as [|x lst]; [split; [reflexivity|constructor]|].
    cbn [chunks_aux].
    destruct (IH (skipn n (x :: lst))) as [Hcat Hall].
    { rewrite length_skipn. simpl List.length in *. lia. }
    split.
    + cbn [List.concat]. rewrite Hcat. apply firstn_skipn.
    + constructor; [|exact Hall].
      rewrite length_firstn. simpl List.length. lia.
Qed.

(** X1: for a batch size of at least one, [chunks] cuts a list into pieces
    that hold between one and [n] elements each and that, put end to end,
    give the list back. *)
Theorem chunks_partition {A : Type} (lst : list A) (n : nat) :
  (1 <= n)%nat ->
  List.concat (chunks lst n) = lst
  /\ Forall (fun c => (1 <= List.length c <= n)%nat) (chunks lst n).
Proof.
  intros Hn. unfold chunks. now apply chunks_aux_spec.
Qed.

Lemma chunks_partition_witness :
  List.concat (chunks ["a"; "b"; "c"; "d"; "e"] 2) = ["a"; "b"; "c"; "d"; "e"]
  /\ Forall (fun c => (1 <= List.length c <= 2)%nat)
            (chunks ["a"; "b"; "c"; "d"; "e"] 2).
Proof.
  apply (chunks_partition ["a"; "b"; "c"; "d"; "e"] 2). lia.
Defined.

Lemma describe_batches (ecs : EcsClient) (cluster_arn : string)
    (describe : string -> ServiceDesc) (batches : list (list string)) :
  Forall (fun batch =>
            client_describe_services ecs cluster_arn batch
            = Ok (Some (map describe batch))) batches ->
  forall (out : list ServiceDesc) (w : World),
    for_fold batches out
      (fun out batch =>
         resp <- lift (client_describe_services ecs cluster_arn batch) ;;
         ret (out ++ or_default resp [])%list) w
    = (Ok (out ++ map describe (List.concat batches))%list, w).
Proof.
  induction 1 as [|batch batches Hb _ IH]; intros out w; simpl.
  - unfold ret. now rewrite List.app_nil_r.
  - unfold bind at 1. unfold bind at 1. unfold lift. rewrite Hb. simpl.
    unfold ret at 1. rewrite IH, map_app, List.app_assoc. reflexivity.
Qed.

(** X2: [describe_services] asks the client about batches of one to ten
    services only; when the client describes every such batch, the answer is
    the description of all the services, in the order asked, and nothing is
    written. *)
Theorem describe_services_batched (ecs : EcsClient) (cluster_arn : string)
    (describe : string -> ServiceDesc) (service_arns : list string)
    (w : World) :
  (forall batch : list string,
     (1 <= List.length batch <= 10)%nat ->
     client_describe_services ecs cluster_arn batch
     = Ok (Some (map describe batch))) ->
  describe_services ecs cluster_arn service_arns w
  = (Ok (map describe service_arns), w).
Proof.
  intros Hclient.
  destruct (chunks_aux_spec (A := string) 10 ltac:(lia)
              (List.length service_arns) service_arns (le_n _))
    as [Hcat Hall].
  unfold describe_services, chunks.
  rewrite (describe_batches ecs cluster_arn describe).
  - rewrite Hcat. reflexivity.
  - eapply Forall_impl; [|exact Hall]. intros batch. apply Hclient.
Qed.

Lemma describe_services_batched_witness :
  describe_services batch_ecs sample_cluster_arn twelve_services empty_world
  = (Ok (map named_service twelve_services), empty_world).
Proof.
  apply (describe_services_batched batch_ecs sample_cluster_arn named_service
           twelve_services empty_world).
  intros batch [_ Hlen]. simpl.
  apply Nat.leb_le in Hlen. rewrite Hlen. reflexivity.
Defined.

(** ** Names *)

Lemma split_aux_nonempty (sep : ascii) (s acc : string) :
  split_aux sep s acc <> [].
Proof.
  revert acc. induction s as [|c s IH]; intros acc; simpl; [discriminate|].
  destruct (Ascii.eqb c sep); [discriminate|apply IH].
Qed.

Lemma last_cons_nonempty {A : Type} (x d : A) (l : list A) :
  l <> [] -> last (x :: l) d = last l d.
Proof. destruct l; [congruence|reflexivity]. Qed.

Lemma contains_char_app (c : ascii) (s t : string) :
  contains_char c (s ++ t) = contains_char c s || contains_char c t.
Proof.
  induction s as [|d s IH]; simpl; [reflexivity|].
  now rewrite IH, orb_assoc.
Qed.

Lemma split_aux_last_clean (sep : ascii) (s acc : string) :
  contains_char sep acc = false ->
  contains_char sep (last (split_aux sep s acc) "") = false.
Proof.
  revert acc. induction s as [|c s IH]; intros acc Hacc; simpl; [exact Hacc|].
  destruct (Ascii.eqb c sep) eqn:E.
  - rewrite last_cons_nonempty by apply split_aux_nonempty. now apply IH.
  - apply IH. rewrite contains_char_app, Hacc. simpl.
    rewrite Ascii.eqb_sym, E. reflexivity.
Qed.

Lemma split_aux_no_sep (sep : ascii) (s acc : string) :
  contains_char sep s = false -> split_aux sep s acc = [(acc ++ s)%string].
Proof.
  revert acc. induction s as [|c s IH]; intros acc Hs; simpl in *.
  - f_equal. clear. induction acc; simpl; congruence.
  - apply orb_false_iff in Hs. destruct Hs as [Hc Hs].
    rewrite Ascii.eqb_sym, Hc, IH by exact Hs.
    f_equal. clear. induction acc; simpl; congruence.
Qed.

Lemma split_aux_last_segment (sep : ascii) (prefix name acc : string) :
  contains_char sep name = false ->
  last (split_aux sep (prefix ++ String sep name) acc) "" = name.
Proof.
  intros Hname. revert acc.
  induction prefix as [|c prefix IH]; intros acc; simpl.
  - rewrite Ascii.eqb_refl, last_cons_nonempty by apply split_aux_nonempty.
    now rewrite split_aux_no_sep.
  - destruct (Ascii.eqb c sep).
    + rewrite last_cons_nonempty by apply split_aux_nonempty. apply IH.
    + apply IH.
Qed.

(** X3: the name that [arn_to_name] gives never contains a slash; it is what
    follows the last slash of the ARN, and an ARN without a slash is its own
    name, so that naming twice changes nothing. *)
Theorem arn_to_name_last_segment (arn : string) :
  contains_char "/"%char (arn_to_name arn) = false
  /\ arn_to_name (arn_to_name arn) = arn_to_name arn
  /\ (contains_char "/"%char arn = false -> arn_to_name arn = arn)
  /\ (forall prefix name : string,
        contains_char "/"%char name = false ->
        arn_to_name (prefix ++ String "/"%char name) = name).
Proof.
  assert (Hself : forall s, contains_char "/"%char s = false ->
                            arn_to_name s = s).
  { intros s Hs. unfold arn_to_name. rewrite Hs.
    destruct (String.eqb_spec s ""); congruence. }
  assert (Hclean : contains_char "/"%char (arn_to_name arn) = false).
  { unfold arn_to_name.
    destruct (arn =? "")%string; [reflexivity|].
    destruct (contains_char "/"%char arn) eqn:E; [|exact E].
    now apply split_aux_last_clean. }
  split; [exact Hclean|]. split; [now apply Hself|]. split; [apply Hself|].
  intros prefix name Hname. unfold arn_to_name.
  destruct (String.eqb_spec (prefix ++ String "/"%char name) "") as [E|_].
  { destruct prefix; discriminate. }
  rewrite contains_char_app. simpl. rewrite orb_true_r.
  now apply split_aux_last_segment.
Qed.

Lemma arn_to_name_last_segment_witness :
  arn_to_name sample_service_arn = "web"
  /\ arn_to_name "api" = "api".
Proof.
  split.
  - exact (proj2 (proj2 (proj2 (arn_to_name_last_segment "")))
             "arn:aws:ecs:us-east-1:111122223333:service/api" "web" eq_refl).
  - exact (proj1 (proj2 (proj2 (arn_to_name_last_segment "api"))) eq_refl).
Defined.

(** ** Datapoints *)

Section SortByTime.
Context {A : Type} (key : A -> Z).

Lemma insert_by_time_perm (x : A) (l : list A) :
  Permutation (insert_by Z.ltb key x l) (x :: l).
Proof.
  induction l as [|y l IH]; simpl; [reflexivity|].
  destruct (key y <? key x); [|reflexivity].
  rewrite IH. apply perm_swap.
Qed.

Lemma sort_by_time_perm (l : list A) : Permutation (sort_by Z.ltb key l) l.
Proof.
  induction l as [|x l IH]; simpl; [reflexivity|].
  rewrite insert_by_time_perm. now constructor.
Qed.

Lemma insert_by_time_sorted (x : A) (l : list A) :
  StronglySorted (fun a b => key a <= key b) l ->
  StronglySorted (fun a b => key a <= key b) (insert_by Z.ltb key x l).
Proof.
  induction 1 as [|y l Hs IH Hy]; simpl.
  - repeat constructor.
  - destruct (Z.ltb_spec (key y) (key x)) as [Hlt|Hge].
    + constructor; [exact IH|].
      eapply Permutation_Forall; [symmetry; apply insert_by_time_perm|].
      constructor; [lia|exact Hy].
    + constructor; [now constructor|].
      constructor; [exact Hge|].
      eapply Forall_impl; [|exact Hy]. intros z Hz. simpl in Hz. lia.
Qed.

Lemma sort_by_time_sorted (l : list A) :
  StronglySorted (fun a b => key a <= key b) (sort_by Z.ltb key l).
Proof.
  induction l as [|x l IH]; simpl; [constructor|].
  now apply insert_by_time_sorted.
Qed.

Lemma distinct_keys (l : list A) (a b : A) :
  NoDup (map key l) -> In a l -> In b l -> key a = key b -> a = b.
Proof.
  induction l as [|x l IH]; simpl; [tauto|].
  intros Hnd [->|Ha] [->|Hb] Hk; inversion Hnd as [|? ? Hx Hl]; subst; auto.
  - exfalso. apply Hx. rewrite Hk. now apply in_map.
  - exfalso. apply Hx. rewrite <- Hk. now apply in_map.
Qed.

Lemma sorted_unique (l1 : list A) :
  forall l2 : list A,
    NoDup (map key l1) ->
    StronglySorted (fun a b => key a <= key b) l1 ->
    StronglySorted (fun a b => key a <= key b) l2 ->
    Permutation l1 l2 -> l1 = l2.
Proof.
  induction l1 as [|a l1 IH]; intros l2 Hnd Hs1 Hs2 Hp.
  - apply Permutation_nil in Hp. now subst.
  - destruct l2 as [|b l2].
    { symmetry in Hp. apply Permutation_nil in Hp. discriminate. }
    inversion Hs1 as [|? ? Hs1' Ha]; subst.
    inversion Hs2 as [|? ? Hs2' Hb]; subst.
    assert (Hab : a = b).
    { assert (Hin_a : In a (b :: l2))
        by (eapply Permutation_in; [exact Hp|now left]).
      assert (Hin_b : In b (a :: l1))
        by (eapply Permutation_in; [symmetry; exact Hp|now left]).
      destruct Hin_a as [->|Hin_a]; [reflexivity|].
      destruct Hin_b as [->|Hin_b]; [reflexivity|].
      rewrite Forall_forall in Ha, Hb.
      apply (distinct_keys (a :: l1)); simpl; auto.
      specialize (Ha _ Hin_b). specialize (Hb _ Hin_a). simpl in *. lia. }
    subst b. f_equal.
    apply IH; auto.
    + now inversion Hnd.
    + eapply Permutation_cons_inv. exact Hp.
Qed.

Lemma sort_by_time_canonical (l1 l2 : list A) :
  NoDup (map key l1) -> Permutation l1 l2 ->
  sort_by Z.ltb key l1 = sort_by Z.ltb key l2.
Proof.
  intros Hnd Hp. apply sorted_unique.
  - eapply Permutation_NoDup; [|exact Hnd].
    apply Permutation_map. symmetry. apply sort_by_time_perm.
  - apply sort_by_time_sorted.
  - apply sort_by_time_sorted.
  - rewrite !sort_by_time_perm. exact Hp.
Qed.

End SortByTime.



Lemma get_metric_avg_answer (cw : CloudWatchClient)
    (namespace metric_name : string) (dims : list Dimension)
    (start end_ period : Z) (resp : option (list Datapoint)) (w : World) :
  get_metric_statistics cw namespace metric_name dims start end_ period
  = Ok resp ->
  get_metric_avg cw namespace metric_name dims start end_ period w
  = (Ok match averages (sort_by Z.ltb Timestamp (or_default resp [])) with
        | [] => None
        | vals => Some (mean vals)
        end, w).
Proof.
  intros Hresp. unfold get_metric_avg, try_except, bind, lift.
  rewrite Hresp. simpl. destruct (or_default resp []) as [|dp dps];
    [reflexivity|].
  destruct (averages _); reflexivity.
Qed.



(** X5: when the datapoints of an answer bear distinct timestamps, the order
    in which the client lists them does not matter: two answers with the
    same datapoints give the same result. *)
Theorem get_metric_avg_order_independent (cw cw' : CloudWatchClient)
    (namespace metric_name : string) (dims : list Dimension)
    (start end_ period : Z) (dps dps' : list Datapoint) (w : World) :
  get_metric_statistics cw namespace metric_name dims start end_ period
  = Ok (Some dps) ->
  get_metric_statistics cw' namespace metric_name dims start end_ period
  = Ok (Some dps') ->
  Permutation dps dps' ->
  NoDup (map Timestamp dps) ->
  get_metric_avg cw namespace metric_name dims start end_ period w
  = get_metric_avg cw' namespace metric_name dims start end_ period w.
Proof.
  intros Hresp Hresp' Hperm Hdistinct.
  rewrite (get_metric_avg_answer _ _ _ _ _ _ _ _ w Hresp),
    (get_metric_avg_answer _ _ _ _ _ _ _ _ w Hresp').
  simpl. now rewrite (sort_by_time_canonical Timestamp dps dps').
Qed.

Lemma get_metric_avg_order_independent_witness :
  get_metric_avg sample_cw "ECS/ContainerInsights" "CpuUtilization" []
    0 3600000000 60 empty_world
  = get_metric_avg reordered_cw "ECS/ContainerInsights" "CpuUtilization" []
      0 3600000000 60 empty_world.
Proof.
  eapply (get_metric_avg_order_independent sample_cw reordered_cw);
    [reflexivity|reflexivity| |].
  - apply Permutation_cons_app with (l1 := [_; _]) (l2 := []).
    simpl. apply perm_swap.
  - simpl. repeat constructor; simpl; intuition discriminate.
Defined.

(** ** Averaging period *)

(** X6: the averaging period is 60, 300 or 900 seconds, it does not shrink
    when the window grows, and for a window of at most fifteen days the
    window holds at most 1440 periods. *)
Theorem period_for_tiers (start end_ start' end_' : Z) :
  In (period_for start end_) [60; 300; 900]
  /\ (end_ - start <= end_' - start' ->
      period_for start end_ <= period_for start' end_')
  /\ (end_ - start <= 15 * 24 * 3600 * 1000000 ->
      end_ - start <= 1440 * (period_for start end_ * 1000000)).
Proof.
  unfold period_for; cbv zeta.
  repeat match goal with
         | |- context [?a <=? ?b] => destruct (Z.leb_spec a b)
         end; simpl; intuition lia.
Qed.

Lemma period_for_tiers_witness :
  period_for 0 (6 * 3600 * 1000000) <= period_for 0 (24 * 3600 * 1000000)
  /\ 24 * 3600 * 1000000
     <= 1440 * (period_for 0 (24 * 3600 * 1000000) * 1000000).
Proof.
  pose proof (period_for_tiers 0 (6 * 3600 * 1000000) 0 (24 * 3600 * 1000000))
    as (_ & Hmono & _).
  pose proof (period_for_tiers 0 (24 * 3600 * 1000000) 0 0) as (_ & _ & Hcount).
  split; [apply Hmono; lia|apply Hcount; lia].
Defined.

(** ** Ties in the ranking *)

Lemma lt_excludes_same (x y k : float) :
  (y <?. x) = true -> same_float x k = true -> same_float y k = false.
Proof.
  unfold same_float, SFeqb. revert x y k.
  intros x y k. float_cases y x k.
Qed.

Section Stability.
Context {A : Type} (key : A -> float) (k : float).

Let tied (a : A) : bool := same_float (key a) k.

Lemma filter_insert_by (x : A) (l : list A) :
  filter tied (insert_by PyFloat.lt key x l)
  = if tied x then x :: filter tied l else filter tied l.
Proof.
  induction l as [|y l IH]; simpl; [reflexivity|].
  destruct (key y <?. key x) eqn:Hlt; simpl; [|reflexivity].
  rewrite IH. destruct (tied x) eqn:Hx; [|reflexivity].
  unfold tied in *. now rewrite (lt_excludes_same _ _ _ Hlt Hx).
Qed.

Lemma filter_sort_by (l : list A) :
  filter tied (sort_by PyFloat.lt key l) = filter tied l.
Proof.
  induction l as [|x l IH]; simpl; [reflexivity|].
  rewrite filter_insert_by, IH. reflexivity.
Qed.

Lemma filter_sorted_reverse (l : list A) :
  filter tied (sorted_reverse PyFloat.lt key l) = filter tied l.
Proof.
  unfold sorted_reverse.
  rewrite filter_rev, filter_sort_by, <- filter_rev, rev_involutive.
  reflexivity.
Qed.

End Stability.

(** X7: when the percentages of the rows are numbers, the two rankings of
    the bottlenecks keep ties in collection order: for every value, the rows
    whose CPU percentage (for the first ranking) or memory percentage (for
    the second) equals it follow one another in the ranking as they do in
    the collection. *)
Theorem bottleneck_ranking_stable `{PyRuntime} (rows : list ServiceRow)
    (k : float) :
  Forall (fun r => PyFloat.is_nan (k_cpu r) = false
                   /\ PyFloat.is_nan (k_mem r) = false) rows ->
  filter (fun r => same_float (k_cpu r) k)
    (sorted_key_reverse k_cpu (filter is_bottleneck rows))
  = filter (fun r => same_float (k_cpu r) k) (filter is_bottleneck rows)
  /\ filter (fun r => same_float (k_mem r) k)
       (sorted_key_reverse k_mem (filter is_bottleneck rows))
     = filter (fun r => same_float (k_mem r) k) (filter is_bottleneck rows).
Proof.
  intros Hnum.
  assert (Hb : Forall (fun r => PyFloat.is_nan (k_cpu r) = false
                                /\ PyFloat.is_nan (k_mem r) = false)
                      (filter is_bottleneck rows)).
  { apply Forall_forall. intros r Hr. apply filter_In in Hr.
    rewrite Forall_forall in Hnum. now apply Hnum. }
  rewrite (sorted_key_reverse_numbers k_cpu),
    (sorted_key_reverse_numbers k_mem).
  - split; apply filter_sorted_reverse.
  - eapply Forall_impl; [|exact Hb]. now intros r [_ ?].
  - eapply Forall_impl; [|exact Hb]. now intros r [? _].
Qed.

Lemma bottleneck_ranking_stable_witness :
  filter (fun r => same_float (k_cpu r) (PyFloat.of_Z 75))
    (@sorted_key_reverse sample_runtime _ k_cpu (filter is_bottleneck tied_rows))
  = [ sample_row "first" (pct 75) (pct 80) 1;
      sample_row "second" (pct 75) (pct 80) 1 ].
Proof.
  assert (Hnum : Forall (fun r => PyFloat.is_nan (k_cpu r) = false
                                  /\ PyFloat.is_nan (k_mem r) = false)
                   tied_rows) by (repeat constructor).
  rewrite (proj1 (@bottleneck_ranking_stable sample_runtime tied_rows
                    (PyFloat.of_Z 75) Hnum)).
  reflexivity.
Defined.

(** ** Size of the summary *)

Lemma group_count_le_one (r : ServiceRow) : (group_count r <= 1)%nat.
Proof.
  unfold group_count, is_bottleneck, is_oversized, is_stopped.
  destruct (Z.eqb_spec (running r) 0) as [->|Hrun]; [simpl; lia|].
  destruct (0 <? running r); [|simpl; lia]. simpl.
  pose proof (high_is_not_low (cpu_level r)) as Hc.
  pose proof (high_is_not_low (mem_level r)) as Hm.
  destruct (cpu_level r =? "high")%string, (cpu_level r =? "low")%string,
    (mem_level r =? "high")%string, (mem_level r =? "low")%string;
    simpl in *; try discriminate; lia.
Qed.

Lemma filter_length_b2n {A : Type} (p : A -> bool) (l : list A) :
  List.length (filter p l) = list_sum (map (fun a => Nat.b2n (p a)) l).
Proof.
  induction l as [|a l IH]; simpl; [reflexivity|].
  destruct (p a); simpl; now rewrite IH.
Qed.

Lemma group_counts_sum (rows : list ServiceRow) :
  (List.length (filter is_bottleneck rows)
   + List.length (filter is_oversized rows)
   + List.length (filter is_stopped rows)
   = list_sum (map group_count rows))%nat.
Proof.
  rewrite !filter_length_b2n.
  induction rows as [|r rows IH]; simpl; [reflexivity|].
  unfold group_count at 1. lia.
Qed.

Lemma list_sum_le_length (f : ServiceRow -> nat) (rows : list ServiceRow) :
  (forall r, f r <= 1)%nat -> (list_sum (map f rows) <= List.length rows)%nat.
Proof.
  intros Hf. induction rows as [|r rows IH]; simpl; [lia|].
  specialize (Hf r). lia.
Qed.

(** X8: the three group sizes that the summary announces never add up to
    more than the number of rows, and for a top count [N >= 0] the summary
    is printed with at least 5 and at most [9 + 4 N] calls of [print], on
    standard output only. *)
Theorem print_summary_size `{PyRuntime} (rows : list ServiceRow) (top : Z) :
  0 <= top ->
  (List.length (filter is_bottleneck rows)
   + List.length (filter is_oversized rows)
   + List.length (filter is_stopped rows) <= List.length rows)%nat
  /\ exists printed : list string,
       prints (print_summary rows top) printed
       /\ (5 <= List.length printed <= 9 + 4 * Z.to_nat top)%nat.
Proof.
  intros Htop. split.
  { rewrite group_counts_sum. apply list_sum_le_length, group_count_le_one. }
  eexists. split; [apply print_summary_prints|].
  rewrite !slice_to_firstn by exact Htop.
  unfold summary_layout, summary_counts.
  set (n := Z.to_nat top).
  assert (Hn : forall l : list ServiceRow, (List.length (firstn n l) <= n)%nat).
  { intros l. rewrite length_firstn. lia. }
  pose proof (Hn (sorted_key_reverse k_cpu (filter is_bottleneck rows))).
  pose proof (Hn (sorted_key_reverse k_mem (filter is_bottleneck rows))).
  pose proof (Hn (filter is_oversized rows)).
  pose proof (Hn (filter is_stopped rows)).
  destruct (nonempty (filter is_bottleneck rows)),
    (nonempty (filter is_oversized rows)), (nonempty (filter is_stopped rows));
    repeat (rewrite ?length_app, ?length_map; cbn [List.length]); lia.
Qed.

Lemma print_summary_size_witness :
  exists printed : list string,
    prints (@print_summary sample_runtime sample_rows 1) printed
    /\ (5 <= List.length printed <= 13)%nat.
Proof.
  destruct (@print_summary_size sample_runtime sample_rows 1 ltac:(lia))
    as (_ & printed & Hprints & Hsize).
  exists printed. split; [exact Hprints|exact Hsize].
Defined.

(** ** Levels *)

(** X9: [classify] answers ["no_data"] exactly for an absent value and one
    of ["low"], ["medium"], ["high"] for a present one, and it is monotone:
    of two values, the greater never gets the lower level, whatever the
    thresholds are. *)
Theorem classify_monotone (low_max med_max : float) :
  (forall value : option float,
     classify value low_max med_max = "no_data" <-> value = None)
  /\ (forall v : float,
        In (classify (Some v) low_max med_max) ["low"; "medium"; "high"])
  /\ (forall v1 v2 : float,
        (v1 <=?. v2) = true ->
        (level_rank (classify (Some v1) low_max med_max)
         <= level_rank (classify (Some v2) low_max med_max))%nat).
Proof.
  split; [|split].
  - intros [v|]; simpl; [|tauto].
    destruct (v <?. low_max); [split; discriminate|].
    destruct (v <=?. med_max); split; discriminate.
  - intros v. simpl.
    destruct (v <?. low_max); [now left|].
    destruct (v <=?. med_max); [right; now left|right; right; now left].
  - intros v1 v2 Hle. simpl.
    destruct (v2 <?. low_max) eqn:H2lo.
    { rewrite (le_lt_trans _ _ _ Hle H2lo). apply le_n. }
    destruct (v2 <=?. med_max) eqn:H2med.
    + rewrite (le_trans _ _ _ Hle H2med).
      destruct (v1 <?. low_max); cbv; lia.
    + destruct (v1 <?. low_max); [cbv; lia|].
      destruct (v1 <=?. med_max); cbv; lia.
Qed.

Lemma classify_monotone_witness :
  (level_rank (classify (pct 39) DEFAULT_CPU_LOW_MAX DEFAULT_CPU_MED_MAX)
   <= level_rank (classify (pct 70) DEFAULT_CPU_LOW_MAX DEFAULT_CPU_MED_MAX))%nat.
Proof.
  exact (proj2 (proj2 (classify_monotone DEFAULT_CPU_LOW_MAX
                         DEFAULT_CPU_MED_MAX))
           (PyFloat.of_Z 39) (PyFloat.of_Z 70) eq_refl).
Defined.

(** ** Reading a recommendation *)

Ltac level_cases :=
  repeat match goal with
         | H : In _ levels |- _ =>
             unfold levels in H; simpl in H;
             destruct H as [<-|[<-|[<-|[<-|[]]]]]
         end.

(** Closes a goal that has two different messages equated. *)
Ltac messages_differ :=
  match goal with
  | H : ?a = ?b |- _ =>
      exfalso; revert H; apply (proj1 (String.eqb_neq a b));
      vm_compute; reflexivity
  end.

Ltac situation_holds :=
  repeat split;
  first [reflexivity | discriminate | left; reflexivity | right; reflexivity].

Ltac situation_fails :=
  exfalso;
  repeat match goal with
         | H : _ /\ _ |- _ => destruct H
         | H : _ \/ _ |- _ => destruct H
         end;
  first [discriminate | congruence].

Ltac reading_case :=
  split; [intros ?; first [messages_differ | situation_holds]
         | intros ?; first [reflexivity | situation_fails]].

(** X10: for levels that [classify] can give and a service with running
    tasks, each message tells the situation: "looks OK" means medium CPU and
    medium memory; "idle CPU" means low CPU and medium memory; "idle memory"
    means medium CPU and low memory; "over-provisioned" means both low;
    "high memory" means high memory; "high CPU" means high CPU with low or
    medium memory; "incomplete metrics" means that a level is missing and
    memory is not high. *)
Theorem recommendation_reading (cpu mem : string) (running : Z) :
  In cpu levels -> In mem levels -> running <> 0 ->
  let message := recommendation cpu mem running in
  (message = msg_ok <-> cpu = "medium" /\ mem = "medium")
  /\ (message = msg_idle_cpu <-> cpu = "low" /\ mem = "medium")
  /\ (message = msg_idle_mem <-> cpu = "medium" /\ mem = "low")
  /\ (message = msg_oversized <-> cpu = "low" /\ mem = "low")
  /\ (message = msg_high_mem <-> mem = "high")
  /\ (message = msg_high_cpu
      <-> cpu = "high" /\ (mem = "low" \/ mem = "medium"))
  /\ (message = msg_incomplete
      <-> mem <> "high" /\ (cpu = "no_data" \/ mem = "no_data"))
  /\ message <> msg_running0.
Proof.
  intros Hcpu Hmem Hrun message. subst message. unfold recommendation.
  destruct (Z.eqb_spec running 0) as [|_]; [contradiction|].
  level_cases; simpl.
  all: repeat (split; [reading_case|]).
  all: intros ?; messages_differ.
Qed.

Lemma recommendation_reading_witness :
  recommendation "medium" "medium" 2 = msg_ok
  /\ recommendation "no_data" "high" 2 = msg_high_mem.
Proof.
  assert (Hmedium : In "medium" levels) by (right; now left).
  assert (Hhigh : In "high" levels) by (right; right; now left).
  assert (Hnone : In "no_data" levels) by (right; right; right; now left).
  assert (Hrun : 2 <> 0) by discriminate.
  destruct (recommendation_reading "medium" "medium" 2 Hmedium Hmedium Hrun)
    as (Hok & _).
  destruct (recommendation_reading "no_data" "high" 2 Hnone Hhigh Hrun)
    as (_ & _ & _ & _ & Hmem & _).
  split; [apply Hok; now split|now apply Hmem].
Defined.

(** ** Profiles *)

Lemma filter_nonempty_names (keep : string -> bool) (l : list string) :
  (forall s, keep s = true -> s <> "") ->
  Forall (fun p => p <> "") (filter keep l).
Proof.
  intros Hkeep. apply Forall_forall. intros p Hp.
  apply filter_In in Hp. now apply Hkeep.
Qed.

Lemma truthy_some (o : option string) :
  truthy o = true -> exists s, o = Some s /\ s <> "".
Proof.
  destruct o as [s|]; simpl; [|discriminate].
  destruct (String.eqb_spec s ""); [discriminate|]. intros _. now exists s.
Qed.

(** X11: [parse_profiles] writes nothing and never yields an empty profile
    name.  A non-empty [--profiles] wins over the profiles file, which is
    then not read; without it, an unreadable profiles file ends the run with
    the exception of the failed read; with none of the three options the
    default profiles are taken. *)
Theorem parse_profiles_names `{PyRuntime} (env : Env) (args : Args.t)
    (w : World) :
  (forall (names : list string) (w' : World),
     parse_profiles env args w = (Ok names, w') ->
     w' = w /\ Forall (fun p => p <> "") names)
  /\ (truthy (Args.profiles args) = true ->
      forall env' : Env,
        parse_profiles env' args w = parse_profiles env args w
        /\ exists names, parse_profiles env args w = (Ok names, w))
  /\ (forall e : exn,
        truthy (Args.profiles args) = false ->
        truthy (Args.profiles_file args) = true ->
        read_lines env (or_default (Args.profiles_file args) "") = Raise e ->
        parse_profiles env args w = (Raise e, w)
        /\ main env args w = (Raise e, w))
  /\ (truthy (Args.profiles args) = false ->
      truthy (Args.profiles_file args) = false ->
      truthy (Args.profile args) = false ->
      parse_profiles env args w = (Ok DEFAULT_PROFILES, w)).
Proof.
  unfold parse_profiles. split; [|split; [|split]].
  - intros names w'.
    destruct (truthy (Args.profiles args)).
    { intros [= <- <-]. split; [reflexivity|].
      apply filter_nonempty_names. intros s Hs.
      destruct (String.eqb_spec s ""); [discriminate|assumption]. }
    destruct (truthy (Args.profiles_file args)).
    { unfold bind, lift. destruct (read_lines env _); [|discriminate].
      intros [= <- <-]. split; [reflexivity|].
      apply filter_nonempty_names. intros s Hs.
      destruct (String.eqb_spec s ""); [discriminate|assumption]. }
    destruct (truthy (Args.profile args)) eqn:Hp.
    { intros [= <- <-]. split; [reflexivity|].
      destruct (truthy_some _ Hp) as (s & -> & Hs). now repeat constructor. }
    intros [= <- <-]. split; [reflexivity|].
    repeat constructor; discriminate.
  - intros ->. intros env'. split; [reflexivity|]. eexists. reflexivity.
  - intros e Hp Hf Hread.
    unfold main, collect_all, parse_profiles, bind, lift.
    rewrite Hp, Hf, Hread. split; reflexivity.
  - intros -> -> ->. reflexivity.
Qed.

Lemma parse_profiles_names_witness :
  @parse_profiles sample_runtime sample_env sample_args empty_world
  = (Ok ["company-dev"; "company-prod"], empty_world)
  /\ @main sample_runtime sample_env (file_args "profiles.txt") empty_world
     = (Raise (Exn OtherException "No such file or directory"), empty_world).
Proof.
  pose proof (@parse_profiles_names sample_runtime sample_env sample_args
                empty_world) as (_ & Hwins & _).
  pose proof (@parse_profiles_names sample_runtime sample_env
                (file_args "profiles.txt") empty_world) as (_ & _ & Hfile & _).
  destruct (Hwins eq_refl crashing_env) as (_ & names & Hnames).
  split.
  - rewrite Hnames. vm_compute in Hnames. injection Hnames as <-. reflexivity.
  - exact (proj2 (Hfile _ eq_refl eq_refl eq_refl)).
Defined.

(** ** What the collection writes *)

Lemma logs_quiet {A : Type} (m : M A) :
  (forall w, snd (m w) = w) -> logs_only m.
Proof.
  intros Hm [out err fs]. exists []. rewrite Hm. simpl.
  now rewrite List.app_nil_r.
Qed.

Lemma logs_ret {A : Type} (a : A) : logs_only (ret a).
Proof. now apply logs_quiet. Qed.

Lemma logs_lift {A : Type} (r : result A) : logs_only (lift r).
Proof. now apply logs_quiet. Qed.

Lemma logs_eprint (s : string) : logs_only (eprint s).
Proof. intros w. now exists [s]. Qed.

Lemma logs_get_metric_avg (cw : CloudWatchClient) (namespace metric_name : string)
    (dims : list Dimension) (start end_ period : Z) :
  logs_only (get_metric_avg cw namespace metric_name dims start end_ period).
Proof. apply logs_quiet. intros w. now rewrite get_metric_avg_world. Qed.

Lemma logs_then (w w1 w2 : World) (errs : list string) :
  w1 = mkWorld (stdout w) (stderr w ++ errs) (files w) ->
  (exists errs2, w2 = mkWorld (stdout w1) (stderr w1 ++ errs2) (files w1)) ->
  exists errs', w2 = mkWorld (stdout w) (stderr w ++ errs') (files w).
Proof.
  intros -> [errs2 ->]. exists (errs ++ errs2)%list. simpl.
  now rewrite List.app_assoc.
Qed.

Lemma logs_bind {A B : Type} (m : M A) (k : A -> M B) :
  logs_only m -> (forall a, logs_only (k a)) -> logs_only (bind m k).
Proof.
  intros Hm Hk w. unfold bind. destruct (Hm w) as [errs Hw].
  destruct (m w) as [[a|e] w1]; simpl in *; [|now exists errs].
  eapply logs_then; [exact Hw|apply Hk].
Qed.

Lemma logs_try_except {A : Type} (body : M A) (catches : exn -> bool)
    (handler : exn -> M A) :
  logs_only body -> (forall e, logs_only (handler e)) ->
  logs_only (try_except body catches handler).
Proof.
  intros Hb Hh w. unfold try_except. destruct (Hb w) as [errs Hw].
  destruct (body w) as [[a|e] w1]; simpl in *; [now exists errs|].
  destruct (catches e); simpl; [|now exists errs].
  eapply logs_then; [exact Hw|apply Hh].
Qed.

Lemma logs_for_fold {A S : Type} (l : list A) (body : S -> A -> M S) :
  (forall s x, logs_only (body s x)) ->
  forall s, logs_only (for_fold l s body).
Proof.
  intros Hbody. induction l as [|x l IH]; intros s; simpl.
  - apply logs_ret.
  - apply logs_bind; [apply Hbody|]. intros s'. apply IH.
Qed.

Ltac logs_step :=
  first
    [ apply logs_get_metric_avg
    | apply logs_ret | apply logs_lift | apply logs_eprint
    | apply logs_bind; [|intros ?]
    | apply logs_try_except; [|intros ?]
    | apply logs_for_fold; intros ? ?
    | match goal with
      | |- logs_only (match ?x with _ => _ end) => destruct x
      end ].

Lemma logs_collect_for_profile `{PyRuntime} (env : Env)
    (profile region : string) (start end_ : Z) (args : Args.t) :
  logs_only (collect_for_profile env profile region start end_ args).
Proof.
  unfold collect_for_profile, cluster_rows, service_row, task_sizing,
    fetch_cpu_mem_pct, describe_services, describe_task_definition,
    list_all_clusters, list_services_in_cluster.
  repeat logs_step.
Qed.

(** X12: whatever the clients answer, and whether it returns or raises,
    [collect_for_profile] prints nothing on standard output and creates no
    file: all it writes are lines on standard error. *)
Theorem collect_for_profile_logs_only `{PyRuntime} (env : Env)
    (profile region : string) (start end_ : Z) (args : Args.t) (w : World) :
  exists errs : list string,
    snd (collect_for_profile env profile region start end_ args w)
    = mkWorld (stdout w) (stderr w ++ errs) (files w).
Proof. apply logs_collect_for_profile. Qed.

(** ** Where a row comes from *)

Lemma post_for_fold_in {A S : Type} (l : list A) (body : S -> A -> M S)
    (Inv : S -> Prop) :
  (forall s x, In x l -> Inv s -> post (body s x) Inv) ->
  forall s, Inv s -> post (for_fold l s body) Inv.
Proof.
  induction l as [|x l IH]; intros Hbody s Hs; simpl.
  - now apply post_ret.
  - eapply post_bind; [apply Hbody; [now left|exact Hs]|].
    intros s' Hs'. apply IH; [|exact Hs'].
    intros s0 y Hy. apply Hbody. now right.
Qed.

Lemma post_of_run {A : Type} (m : M A) (Q : A -> Prop) :
  (forall w, match fst (m w) with Ok a => Q a | Raise _ => True end) ->
  post m Q.
Proof.
  intros Hm w w' a E. specialize (Hm w). now rewrite E in Hm.
Qed.

Lemma fetch_label (cw : CloudWatchClient) (cluster_name service_name : string)
    (start end_ : Z) :
  post (fetch_cpu_mem_pct cw cluster_name service_name start end_)
       (fun '(cpu, mem, label) =>
          In label source_labels
          /\ (label = "no_data" <-> cpu = None /\ mem = None)).
Proof.
  apply post_of_run. intros w.
  rewrite fetch_cpu_mem_pct_unfold. cbv zeta.
  destruct (lookup _ _ _ _ _ _ "ECS/ContainerInsights" "CpuUtilization")
    as [cpu|]; [|exact I].
  destruct (lookup _ _ _ _ _ _ "ECS/ContainerInsights" "MemoryUtilization")
    as [mem|]; [|exact I].
  destruct (is_some cpu || is_some mem) eqn:Ha.
  { simpl. split; [now left|]. split; [discriminate|].
    intros [-> ->]. discriminate. }
  destruct (lookup _ _ _ _ _ _ "AWS/ECS" "CPUUtilization") as [cpu2|];
    [|exact I].
  destruct (lookup _ _ _ _ _ _ "AWS/ECS" "MemoryUtilization") as [mem2|];
    [|exact I].
  destruct (is_some cpu2 || is_some mem2) eqn:Hb; simpl.
  - split; [right; now left|]. split; [discriminate|].
    intros [-> ->]. discriminate.
  - split; [right; right; now left|]. now split.
Qed.

Lemma task_sizing_shape `{PyRuntime} (ecs : EcsClient) (task_def_arn : string) :
  post (task_sizing ecs task_def_arn)
       (fun '(cpu_units, memory_mb, vcpu, mem_gb) =>
          (cpu_units = None -> vcpu = None)
          /\ (memory_mb = None -> mem_gb = None)
          /\ (task_def_arn = "" -> cpu_units = None /\ memory_mb = None)).
Proof.
  unfold task_sizing. apply post_try_except.
  - destruct (String.eqb_spec task_def_arn "") as [->|Hne]; simpl.
    + apply (post_bind _ _
                (fun td => td = {| td_cpu := None; td_memory := None |}));
        [now apply post_ret|].
      intros td ->. apply post_ret. simpl. repeat split.
    + eapply post_bind; [apply post_any|]. intros td _. apply post_ret.
      split; [intros ->; reflexivity|].
      split; [intros ->; reflexivity|contradiction].
  - intros e. apply post_ret. repeat split.
Qed.

Lemma service_row_origin `{PyRuntime} (ecs : EcsClient) (cw : CloudWatchClient)
    (profile region_name cluster_name : string) (start end_ : Z)
    (args : Args.t) (svc : ServiceDesc) :
  post (service_row ecs cw profile region_name cluster_name start end_ args svc)
       (fun r => row_origin profile region_name r /\ cluster r = cluster_name).
Proof.
  unfold service_row.
  eapply post_bind; [apply task_sizing_shape|].
  intros [[[cu mm] vc] mg] (Hcu & Hmm & Harn).
  eapply post_bind; [apply fetch_label|].
  intros [[cpu mem] label] (Hin & Hnone).
  apply post_ret. unfold row_origin, getattr. simpl.
  repeat split; try assumption; try apply Hnone; try apply Harn; auto.
Qed.

Lemma cluster_rows_post `{PyRuntime} (ecs : EcsClient) (cw : CloudWatchClient)
    (profile region_name : string) (start end_ : Z) (args : Args.t)
    (rows : list ServiceRow) (c_arn : string) (P : ServiceRow -> Prop) :
  (forall r, row_origin profile region_name r ->
             cluster r = arn_to_name c_arn -> P r) ->
  Forall P rows ->
  post (cluster_rows ecs cw profile region_name start end_ args rows c_arn)
       (Forall P).
Proof.
  intros HP Hrows. unfold cluster_rows.
  eapply post_bind; [apply post_any|]. intros [[|arn arns]|] _;
    try now apply post_ret.
  eapply post_bind; [apply post_any|]. intros [services|] _;
    try now apply post_ret.
  apply post_for_fold; [|exact Hrows].
  intros rows' svc Hrows'.
  eapply post_bind; [apply service_row_origin|]. intros row [Ho Hc].
  apply post_ret. apply Forall_app. split; [exact Hrows'|].
  constructor; [now apply HP|constructor].
Qed.

(** X13: every row that [collect_for_profile] returns bears the profile name
    as its account and the region of the call; its ["error"] cell is empty;
    its metrics source is one of the three labels, and it is ["no_data"]
    exactly when both percentages are absent; a row without CPU units has no
    vCPU figure, a row without memory has no GB figure, and a row without
    task definition has neither. *)
Theorem collect_for_profile_row_origin `{PyRuntime} (env : Env)
    (profile region_name : string) (start end_ : Z) (args : Args.t)
    (w w' : World) (rows : list ServiceRow) :
  collect_for_profile env profile region_name start end_ args w
  = (Ok rows, w') ->
  Forall (fun r =>
            account_id r = profile
            /\ region r = region_name
            /\ getattr r "error" "" = ""
            /\ In (getattr r "metrics_source" "")
                  ["ECS/ContainerInsights"; "AWS/ECS"; "no_data"]
            /\ (getattr r "metrics_source" "" = "no_data"
                <-> cpu_pct r = None /\ mem_pct r = None)
            /\ (cpu_units r = None -> vcpu r = None)
            /\ (memory_mb r = None -> memory_gb r = None)
            /\ (task_definition_arn r = "" ->
                cpu_units r = None /\ memory_mb r = None))
         rows.
Proof.
  revert w w' rows.
  change (post (collect_for_profile env profile region_name start end_ args)
               (Forall (row_origin profile region_name))).
  unfold collect_for_profile.
  eapply post_bind; [apply post_any|]. intros [[ecs cw]|] _;
    [|apply post_ret; constructor].
  eapply post_bind; [apply post_any|]. intros [cluster_arns|] _;
    [|apply post_ret; constructor].
  apply post_for_fold; [|constructor].
  intros rows c_arn Hrows. apply cluster_rows_post; [|exact Hrows].
  intros r Hr _. exact Hr.
Qed.

Lemma collect_for_profile_row_origin_witness :
  exists r : ServiceRow,
    @collect_for_profile sample_runtime sample_env "company-dev" "us-east-1"
      0 86400000000 sample_args empty_world
    = (Ok [r], empty_world)
    /\ account_id r = "company-dev"
    /\ getattr r "metrics_source" "" = "ECS/ContainerInsights".
Proof.
  eexists. split; [vm_compute; reflexivity|].
  assert (Hrun : @collect_for_profile sample_runtime sample_env "company-dev"
                   "us-east-1" 0 86400000000 sample_args empty_world
                 = (Ok [_], empty_world)) by (vm_compute; reflexivity).
  pose proof (@collect_for_profile_row_origin sample_runtime sample_env
                "company-dev" "us-east-1" 0 86400000000 sample_args
                empty_world empty_world _ Hrun) as Hall.
  inversion Hall as [|? ? (Haccount & _) _]; subst.
  split; [exact Haccount|reflexivity].
Defined.

(** X14: when [--clusters] names at least one cluster, every row that
    [collect_for_profile] returns belongs to one of the named clusters. *)
Theorem collect_for_profile_cluster_filter `{PyRuntime} (env : Env)
    (profile region_name : string) (start end_ : Z) (args : Args.t)
    (w w' : World) (rows : list ServiceRow) :
  stripped_items (Args.clusters args) <> [] ->
  collect_for_profile env profile region_name start end_ args w
  = (Ok rows, w') ->
  Forall (fun r => In (cluster r) (stripped_items (Args.clusters args))) rows.
Proof.
  intros Hfilter. revert w w' rows.
  change (post (collect_for_profile env profile region_name start end_ args)
               (Forall (fun r => In (cluster r)
                                    (stripped_items (Args.clusters args))))).
  unfold collect_for_profile.
  eapply post_bind; [apply post_any|]. intros [[ecs cw]|] _;
    [|apply post_ret; constructor].
  eapply post_bind; [apply post_any|]. intros [cluster_arns|] _;
    [|apply post_ret; constructor].
  destruct (stripped_items (Args.clusters args)) as [|name names] eqn:E;
    [congruence|]. cbn [nonempty].
  apply post_for_fold_in; [|constructor].
  intros rows c_arn Hin Hrows. apply filter_In in Hin. destruct Hin as [_ Hin].
  apply existsb_exists in Hin. destruct Hin as (n & Hn & Heq).
  apply String.eqb_eq in Heq.
  apply cluster_rows_post; [|exact Hrows].
  intros r _ ->. now rewrite Heq.
Qed.

Lemma collect_for_profile_cluster_filter_witness :
  exists r : ServiceRow,
    @collect_for_profile sample_runtime two_cluster_env "company-dev"
      "us-east-1" 0 86400000000 (cluster_args "worker") empty_world
    = (Ok [r], empty_world)
    /\ In (cluster r) ["worker"].
Proof.
  eexists. split; [vm_compute; reflexivity|].
  assert (Hrun : @collect_for_profile sample_runtime two_cluster_env
                   "company-dev" "us-east-1" 0 86400000000
                   (cluster_args "worker") empty_world
                 = (Ok [_], empty_world)) by (vm_compute; reflexivity).
  assert (Hfilter : @stripped_items sample_runtime
                      (Args.clusters (cluster_args "worker")) <> [])
    by discriminate.
  pose proof (@collect_for_profile_cluster_filter sample_runtime
                two_cluster_env "company-dev" "us-east-1" 0 86400000000
                (cluster_args "worker") empty_world empty_world _
                Hfilter Hrun) as Hall.
  inversion Hall as [|? ? Hin _]; subst. exact Hin.
Defined.

(** ** Failures of access *)

Lemma collect_for_profile_access_failure_core `{PyRuntime} (env : Env)
    (profile region_name : string) (start end_ : Z) (args : Args.t)
    (w : World) (e : exn) :
  (boto3_session env profile region_name = Raise e ->
   collect_for_profile env profile region_name start end_ args w
   = (Ok [],
      mkWorld (stdout w)
        (stderr w ++ ["[ERROR] Failed to create session for profile="
                      ++ profile ++ ": " ++ exn_text e])
        (files w)))
  /\ (forall (ecs : EcsClient) (cw : CloudWatchClient),
        boto3_session env profile region_name = Ok (ecs, cw) ->
        paginate_list_clusters ecs = Raise e ->
        collect_for_profile env profile region_name start end_ args w
        = (Ok [],
           mkWorld (stdout w)
             (stderr w ++ ["[ERROR] list_clusters failed for profile="
                           ++ profile ++ ": " ++ exn_text e])
             (files w))).
Proof.
  split.
  - intros Hs. unfold collect_for_profile, bind, try_except, lift.
    rewrite Hs. reflexivity.
  - intros ecs cw Hs Hl.
    unfold collect_for_profile, list_all_clusters, bind, try_except, lift.
    rewrite Hs. simpl. rewrite Hl. reflexivity.
Qed.

(** X15: when the session of a profile cannot be opened, or its clusters
    cannot be listed, whatever the class of the exception,
    [collect_for_profile] returns no row and sends one [ERROR] line with the
    profile and the text of the exception to standard error. *)
Theorem collect_for_profile_access_failure `{PyRuntime} (env : Env)
    (profile region_name : string) (start end_ : Z) (args : Args.t)
    (w : World) (e : exn) :
  (boto3_session env profile region_name = Raise e ->
   collect_for_profile env profile region_name start end_ args w
   = (Ok [],
      mkWorld (stdout w)
        (stderr w ++ ["[ERROR] Failed to create session for profile="
                      ++ profile ++ ": " ++ exn_text e])
        (files w)))
  /\ (forall (ecs : EcsClient) (cw : CloudWatchClient),
        boto3_session env profile region_name = Ok (ecs, cw) ->
        paginate_list_clusters ecs = Raise e ->
        collect_for_profile env profile region_name start end_ args w
        = (Ok [],
           mkWorld (stdout w)
             (stderr w ++ ["[ERROR] list_clusters failed for profile="
                           ++ profile ++ ": " ++ exn_text e])
             (files w))).
Proof. apply collect_for_profile_access_failure_core. Qed.

Lemma collect_for_profile_access_failure_witness :
  @collect_for_profile sample_runtime no_access_env "company-dev" "us-east-1"
    0 86400000000 sample_args empty_world
  = (Ok [],
     mkWorld []
       ["[ERROR] Failed to create session for profile=company-dev: The config profile (company-dev) could not be found"]
       [])
  /\ @collect_for_profile sample_runtime denied_env "company-dev" "us-east-1"
       0 86400000000 sample_args empty_world
     = (Ok [],
        mkWorld []
          ["[ERROR] list_clusters failed for profile=company-dev: AccessDeniedException"]
          []).
Proof.
  split.
  - exact (proj1 (@collect_for_profile_access_failure sample_runtime
                    no_access_env "company-dev" "us-east-1" 0 86400000000
                    sample_args empty_world _) eq_refl).
  - exact (proj2 (@collect_for_profile_access_failure sample_runtime
                    denied_env "company-dev" "us-east-1" 0 86400000000
                    sample_args empty_world _) denied_ecs silent_cw
             eq_refl eq_refl).
Defined.

(** X16: a cluster whose services cannot be listed or described, whatever
    the class of the exception, adds no row and one [WARN] line; a cluster
    without services adds nothing at all; the rows collected before are kept
    as they are. *)
Theorem cluster_rows_skips `{PyRuntime} (ecs : EcsClient)
    (cw : CloudWatchClient) (profile region_name : string) (start end_ : Z)
    (args : Args.t) (rows : list ServiceRow) (c_arn : string) (w : World) :
  (forall e : exn,
     paginate_list_services ecs c_arn = Raise e ->
     cluster_rows ecs cw profile region_name start end_ args rows c_arn w
     = (Ok rows,
        mkWorld (stdout w)
          (stderr w ++ ["[WARN] list_services failed for profile=" ++ profile
                        ++ " cluster=" ++ arn_to_name c_arn ++ ": "
                        ++ exn_text e])
          (files w)))
  /\ (forall pages,
        paginate_list_services ecs c_arn = Ok pages ->
        extend_pages pages = [] ->
        cluster_rows ecs cw profile region_name start end_ args rows c_arn w
        = (Ok rows, w))
  /\ (forall pages (e : exn),
        paginate_list_services ecs c_arn = Ok pages ->
        extend_pages pages <> [] ->
        describe_services ecs c_arn (extend_pages pages) w = (Raise e, w) ->
        cluster_rows ecs cw profile region_name start end_ args rows c_arn w
        = (Ok rows,
           mkWorld (stdout w)
             (stderr w ++ ["[WARN] describe_services failed for profile="
                           ++ profile ++ " cluster=" ++ arn_to_name c_arn
                           ++ ": " ++ exn_text e])
             (files w))).
Proof.
  split; [|split].
  - intros e Hl.
    unfold cluster_rows, list_services_in_cluster, bind, try_except, lift.
    rewrite Hl. reflexivity.
  - intros pages Hl Hnone.
    unfold cluster_rows, list_services_in_cluster, bind, try_except, lift.
    rewrite Hl. simpl. unfold ret. rewrite Hnone. reflexivity.
  - intros pages e Hl Hsome Hd.
    unfold cluster_rows, list_services_in_cluster, bind, try_except, lift.
    rewrite Hl. simpl. unfold ret at 1 2.
    destruct (extend_pages pages) as [|arn arns] eqn:E; [congruence|].
    rewrite Hd. reflexivity.
Qed.

Lemma cluster_rows_skips_witness :
  @cluster_rows sample_runtime denied_ecs silent_cw "company-dev" "us-east-1"
    0 86400000000 sample_args sample_rows sample_cluster_arn empty_world
  = (Ok sample_rows,
     mkWorld []
       ["[WARN] list_services failed for profile=company-dev cluster=api: AccessDeniedException"]
       []).
Proof.
  exact (proj1 (@cluster_rows_skips sample_runtime denied_ecs silent_cw
                  "company-dev" "us-east-1" 0 86400000000 sample_args
                  sample_rows sample_cluster_arn empty_world) _ eq_refl).
Defined.

(** ** Runs without access *)

Lemma collect_loop_no_session `{PyRuntime} (env : Env) (args : Args.t)
    (start end_ : Z) :
  (forall p, exists e, boto3_session env p (Args.region args) = Raise e) ->
  forall (profiles : list string) (w : World),
    exists errs : list string,
      List.length errs = List.length profiles
      /\ for_fold profiles []
           (fun all_rows prof =>
              print (nl ++ "==> Collecting ECS data for profile: " ++ prof
                     ++ " | region: " ++ Args.region args) ;;;
              rows <- collect_for_profile env prof (Args.region args)
                        start end_ args ;;
              ret (all_rows ++ rows)%list) w
         = (Ok [],
            mkWorld (stdout w ++ map (progress_line args) profiles)
              (stderr w ++ errs) (files w)).
Proof.
  intros Henv. induction profiles as [|p profiles IH]; intros w.
  - exists []. split; [reflexivity|]. destruct w. simpl. unfold ret.
    now rewrite !List.app_nil_r.
  - destruct (Henv p) as [e He]. cbn [for_fold].
    unfold bind at 1. unfold bind at 1. unfold print at 1.
    unfold bind at 1.
    rewrite (proj1 (collect_for_profile_access_failure_core env p
                      (Args.region args) start end_ args _ e) He).
    unfold ret at 1. cbn [List.app].
    destruct (IH (mkWorld
                    (stdout w ++ [progress_line args p])
                    (stderr w ++ ["[ERROR] Failed to create session for profile="
                                  ++ p ++ ": " ++ exn_text e])
                    (files w))) as (errs & Hlen & Hrun).
    eexists (_ :: errs). split; [simpl; now rewrite Hlen|].
    unfold progress_line in *. cbn [stdout stderr files] in *.
    rewrite Hrun. cbn [map].
    now rewrite <- !List.app_assoc.
Qed.

(** X17: when the window of the run can be computed and no profile lets a
    session be opened, a run announces every profile on standard output,
    sends one error line per profile and then the no-services message to
    standard error, creates no file and returns the exit status 2. *)
Theorem main_without_access `{PyRuntime} (env : Env) (args : Args.t)
    (profiles : list string) (start : Z) (w : World) :
  parse_profiles env args w = (Ok profiles, w) ->
  minus_hours (now env) (Z.max 1 (Args.hours args)) = Ok start ->
  (forall p, exists e, boto3_session env p (Args.region args) = Raise e) ->
  exists errs : list string,
    List.length errs = List.length profiles
    /\ main env args w
       = (Ok 2,
          mkWorld (stdout w ++ map (progress_line args) profiles)
            (stderr w ++ errs ++ [no_services_message]) (files w)).
Proof.
  intros Hparse Hwindow Henv.
  destruct (collect_loop_no_session env args start (now env)
              Henv profiles w) as (errs & Hlen & Hrun).
  exists errs. split; [exact Hlen|].
  unfold main, collect_all. unfold bind at 1. unfold bind at 1.
  rewrite Hparse. cbv zeta. unfold bind at 1, lift. rewrite Hwindow.
  rewrite Hrun, report_no_rows.
  cbn [stdout stderr files]. now rewrite <- List.app_assoc.
Qed.

Lemma main_without_access_witness :
  exists errs : list string,
    List.length errs = 2%nat
    /\ @main sample_runtime no_access_env sample_args empty_world
       = (Ok 2,
          mkWorld (map (progress_line sample_args)
                       ["company-dev"; "company-prod"])
            (errs ++ [no_services_message]) []).
Proof.
  assert (Henv : forall p, exists e,
             boto3_session no_access_env p (Args.region sample_args) = Raise e)
    by (intros p; eexists; reflexivity).
  exact (@main_without_access sample_runtime no_access_env sample_args
           ["company-dev"; "company-prod"] _ empty_world eq_refl eq_refl Henv).
Defined.

(** ** Runs that end normally *)

(** X18: when the CloudWatch clients fail only with a [ClientError] or a
    [BotoCoreError], no failure of a session, of a listing, of a description
    or of a metric lookup stops [collect_for_profile]: it always returns its
    rows. *)
Theorem collect_for_profile_always_returns `{PyRuntime} (env : Env)
    (profile region_name : string) (start end_ : Z) (args : Args.t)
    (w : World) :
  (forall p r ecs cw, boto3_session env p r = Ok (ecs, cw) -> well_behaved cw) ->
  exists (rows : list ServiceRow) (w' : World),
    collect_for_profile env profile region_name start end_ args w
    = (Ok rows, w').
Proof.
  intros Henv. now apply returns_collect_for_profile.
Qed.

Lemma silent_cw_well_behaved : well_behaved silent_cw.
Proof. intros ? ? ? ? ? ? ? Hraise. discriminate Hraise. Qed.

Lemma collect_for_profile_always_returns_witness :
  exists (rows : list ServiceRow) (w' : World),
    @collect_for_profile sample_runtime denied_env "company-dev" "us-east-1"
      0 86400000000 sample_args empty_world
    = (Ok rows, w').
Proof.
  apply (@collect_for_profile_always_returns sample_runtime denied_env).
  intros p r ecs cw [= _ <-]. exact silent_cw_well_behaved.
Defined.



(** ** Task sizing *)

(** X20: the lookup of the task sizing never raises and writes nothing; a
    service without task definition is sized without asking the client, and
    a task definition that the client fails to describe, whatever the class
    of the exception, leaves the four sizing figures absent. *)
Theorem task_sizing_never_raises `{PyRuntime} (ecs : EcsClient)
    (task_def_arn : string) (w : World) :
  exists sizing : option Z * option Z * option float * option float,
    task_sizing ecs task_def_arn w = (Ok sizing, w)
    /\ (task_def_arn = "" ->
        sizing = (None, None, None, None)
        /\ forall ecs' : EcsClient,
             task_sizing ecs' task_def_arn w = task_sizing ecs task_def_arn w)
    /\ (forall e : exn,
          task_def_arn <> "" ->
          client_describe_task_definition ecs task_def_arn = Raise e ->
          sizing = (None, None, None, None)).
Proof.
  unfold task_sizing, describe_task_definition, try_except, bind, lift.
  destruct (String.eqb_spec task_def_arn "") as [->|Hne]; simpl.
  - eexists. split; [reflexivity|]. split; [|congruence].
    intros _. split; reflexivity.
  - destruct (client_describe_task_definition ecs task_def_arn) as [td|e];
      simpl.
    + eexists. split; [reflexivity|]. split; [congruence|discriminate].
    + eexists. split; [reflexivity|]. split; [congruence|reflexivity].
Qed.

Lemma task_sizing_never_raises_witness :
  @task_sizing sample_runtime denied_ecs "web:7" empty_world
  = (Ok (None, None, None, None), empty_world)
  /\ @task_sizing sample_runtime denied_ecs "" empty_world
     = (Ok (None, None, None, None), empty_world).
Proof.
  destruct (@task_sizing_never_raises sample_runtime denied_ecs "web:7"
              empty_world) as (s1 & Hrun1 & _ & Hfail).
  destruct (@task_sizing_never_raises sample_runtime denied_ecs ""
              empty_world) as (s2 & Hrun2 & Hempty & _).
  rewrite Hrun1, Hrun2.
  rewrite (Hfail _ ltac:(discriminate) eq_refl), (proj1 (Hempty eq_refl)).
  split; reflexivity.
Defined.

(** ** The rows of a run *)

Lemma collect_for_profile_post `{PyRuntime} (env : Env)
    (profile region_name : string) (start end_ : Z) (args : Args.t) :
  post (collect_for_profile env profile region_name start end_ args)
       (Forall (fun r => row_origin profile region_name r
                         /\ row_derived args r)).
Proof.
  unfold collect_for_profile.
  eapply post_bind; [apply post_any|]. intros [[ecs cw]|] _;
    [|apply post_ret; constructor].
  eapply post_bind; [apply post_any|]. intros [cluster_arns|] _;
    [|apply post_ret; constructor].
  apply post_for_fold; [|constructor].
  intros rows c_arn Hrows.
  intros w w' rows' Hrun.
  assert (Ho : Forall (row_origin profile region_name) rows').
  { eapply (cluster_rows_post ecs cw profile region_name start end_ args rows
              c_arn (row_origin profile region_name)); [now intros| |exact Hrun].
    eapply Forall_impl; [|exact Hrows]. now intros r [? _]. }
  assert (Hd : Forall (row_derived args) rows').
  { eapply (cluster_rows_derived ecs cw profile region_name start end_ args
              rows c_arn); [|exact Hrun].
    eapply Forall_impl; [|exact Hrows]. now intros r [_ ?]. }
  rewrite Forall_forall in *. intros r Hr. split; auto.
Qed.

Lemma collect_loop_run `{PyRuntime} (env : Env) (args : Args.t)
    (start end_ : Z) (profiles : list string) :
  forall (acc rows : list ServiceRow) (w w' : World),
    for_fold profiles acc
      (fun all_rows prof =>
         print (nl ++ "==> Collecting ECS data for profile: " ++ prof
                ++ " | region: " ++ Args.region args) ;;;
         rows <- collect_for_profile env prof (Args.region args)
                   start end_ args ;;
         ret (all_rows ++ rows)%list) w
    = (Ok rows, w') ->
    (exists new : list ServiceRow,
       rows = (acc ++ new)%list
       /\ Forall (fun r => In (account_id r) profiles
                           /\ region r = Args.region args
                           /\ row_derived args r) new)
    /\ stdout w' = (stdout w ++ map (progress_line args) profiles)%list
    /\ files w' = files w.
Proof.
  induction profiles as [|p profiles IH]; intros acc rows w w'; simpl.
  - intros [= <- <-]. split; [exists []; split; [|constructor]|].
    + now rewrite List.app_nil_r.
    + now rewrite List.app_nil_r.
  - unfold bind at 1. unfold bind at 1. unfold print at 1.
    unfold bind at 1.
    pose proof (logs_collect_for_profile env p (Args.region args) start end_
                  args) as Hlogs.
    pose proof (collect_for_profile_post env p (Args.region args) start end_
                  args) as Hpost.
    match goal with
    | |- context [collect_for_profile ?e ?q ?r ?s ?t ?a ?w0] =>
        specialize (Hlogs w0); specialize (Hpost w0);
        destruct (collect_for_profile e q r s t a w0) as [[found|ex] w1]
    end; [|discriminate].
    destruct Hlogs as [errs Hw1]. simpl in Hw1. subst w1.
    specialize (Hpost _ _ eq_refl).
    unfold ret at 1. intros Hrun.
    destruct (IH _ _ _ _ Hrun) as ((new & -> & Hnew) & Hout & Hfiles).
    cbn [stdout stderr files] in Hout, Hfiles.
    split; [|split; [|exact Hfiles]].
    + exists (found ++ new)%list. split; [now rewrite List.app_assoc|].
      apply Forall_app. split.
      * eapply Forall_impl; [|exact Hpost].
        intros r ((Hacc & Hreg & _) & Hd). split; [now left|now split].
      * eapply Forall_impl; [|exact Hnew].
        intros r (Hin & Hrest). split; [now right|exact Hrest].
    + rewrite Hout, <- List.app_assoc. reflexivity.
Qed.

(** X21: when the loop over the profiles returns, it has announced every
    profile once, in order, on standard output and created no file; every
    row it returns bears one of the profiles as its account and the region
    of the run, and its levels and recommendation are those that [classify]
    and [recommendation] give under the thresholds of the run. *)
Theorem collect_all_rows `{PyRuntime} (env : Env) (args : Args.t)
    (profiles : list string) (rows : list ServiceRow) (w w' : World) :
  parse_profiles env args w = (Ok profiles, w) ->
  collect_all env args w = (Ok rows, w') ->
  stdout w' = (stdout w ++ map (progress_line args) profiles)%list
  /\ files w' = files w
  /\ Forall (fun r =>
               In (account_id r) profiles
               /\ region r = Args.region args
               /\ cpu_level r
                  = classify (cpu_pct r) (Args.cpu_low_max args)
                      (Args.cpu_med_max args)
               /\ mem_level r
                  = classify (mem_pct r) (Args.mem_low_max args)
                      (Args.mem_med_max args)
               /\ action r
                  = recommendation (cpu_level r) (mem_level r) (running r))
            rows.
Proof.
  intros Hparse. unfold collect_all. unfold bind at 1. rewrite Hparse.
  cbv zeta. unfold bind at 1, lift.
  destruct (minus_hours (now env) (Z.max 1 (Args.hours args))) as [start|e];
    [|discriminate].
  intros Hrun.
  destruct (collect_loop_run env args _ _ profiles [] rows w w' Hrun)
    as ((new & -> & Hnew) & Hout & Hfiles).
  split; [exact Hout|]. split; [exact Hfiles|]. exact Hnew.
Qed.

Lemma collect_all_rows_witness :
  exists (r : ServiceRow) (w' : World),
    @collect_all sample_runtime sample_env sample_args empty_world
    = (Ok [r], w')
    /\ stdout w'
       = map (progress_line sample_args) ["company-dev"; "company-prod"]
    /\ In (account_id r) ["company-dev"; "company-prod"].
Proof.
  eexists _, _. split; [vm_compute; reflexivity|].
  assert (Hrun : @collect_all sample_runtime sample_env sample_args empty_world
                 = (Ok [_], _)) by (vm_compute; reflexivity).
  destruct (@collect_all_rows sample_runtime sample_env sample_args
              ["company-dev"; "company-prod"] _ empty_world _ eq_refl Hrun)
    as (Hout & _ & Hall).
  split; [exact Hout|].
  inversion Hall as [|? ? (Hin & _) _]; subst. exact Hin.
Defined.

(** ** One row per service *)

Lemma task_sizing_run `{PyRuntime} (ecs : EcsClient) (task_def_arn : string)
    (w : World) :
  exists sizing, task_sizing ecs task_def_arn w = (Ok sizing, w).
Proof.
  unfold task_sizing, describe_task_definition, try_except, bind, lift.
  destruct (negb (task_def_arn =? "")%string); simpl.
  - destruct (client_describe_task_definition ecs task_def_arn);
      eexists; reflexivity.
  - eexists. reflexivity.
Qed.

Lemma lookup_ok (cw : CloudWatchClient) (cluster_name service_name : string)
    (start end_ : Z) (w : World) (namespace metric_name : string) :
  well_behaved cw ->
  exists value,
    lookup cw cluster_name service_name start end_ w namespace metric_name
    = Ok value.
Proof.
  intros Hcw. unfold lookup.
  destruct (returns_get_metric_avg cw namespace metric_name
              [ {| Name := "ClusterName"; Value := cluster_name |};
                {| Name := "ServiceName"; Value := service_name |} ]
              start end_ (period_for start end_) Hcw w) as (value & w' & E).
  rewrite E. now exists value.
Qed.

Lemma fetch_run (cw : CloudWatchClient) (cluster_name service_name : string)
    (start end_ : Z) (w : World) :
  well_behaved cw ->
  exists metrics,
    fetch_cpu_mem_pct cw cluster_name service_name start end_ w
    = (Ok metrics, w).
Proof.
  intros Hcw. rewrite fetch_cpu_mem_pct_unfold. cbv zeta.
  destruct (lookup_ok cw cluster_name service_name start end_ w
              "ECS/ContainerInsights" "CpuUtilization" Hcw) as [a ->].
  destruct (lookup_ok cw cluster_name service_name start end_ w
              "ECS/ContainerInsights" "MemoryUtilization" Hcw) as [b ->].
  destruct (is_some a || is_some b); [eexists; reflexivity|].
  destruct (lookup_ok cw cluster_name service_name start end_ w
              "AWS/ECS" "CPUUtilization" Hcw) as [c ->].
  destruct (lookup_ok cw cluster_name service_name start end_ w
              "AWS/ECS" "MemoryUtilization" Hcw) as [d ->].
  destruct (is_some c || is_some d); eexists; reflexivity.
Qed.

Lemma service_row_run `{PyRuntime} (ecs : EcsClient) (cw : CloudWatchClient)
    (profile region_name cluster_name : string) (start end_ : Z)
    (args : Args.t) (svc : ServiceDesc) (w : World) :
  well_behaved cw ->
  exists row : ServiceRow,
    service_row ecs cw profile region_name cluster_name start end_ args svc w
    = (Ok row, w)
    /\ row_facts row = service_facts svc
    /\ cluster row = cluster_name.
Proof.
  intros Hcw. unfold service_row. unfold bind at 1.
  destruct (task_sizing_run ecs (or_default (taskDefinition svc) "") w)
    as [[[[cu mm] vc] mg] ->].
  unfold bind at 1.
  destruct (fetch_run cw cluster_name (or_default (serviceName svc) "")
              start end_ w Hcw) as [[[cpu mem] label] ->].
  eexists. split; [reflexivity|]. split; reflexivity.
Qed.

Lemma service_loop_run `{PyRuntime} (ecs : EcsClient) (cw : CloudWatchClient)
    (profile region_name cluster_name : string) (start end_ : Z)
    (args : Args.t) (w : World) :
  well_behaved cw ->
  forall (services : list ServiceDesc) (rows : list ServiceRow),
    exists new : list ServiceRow,
      for_fold services rows
        (fun rows svc =>
           row <- service_row ecs cw profile region_name cluster_name
                    start end_ args svc ;;
           ret (rows ++ [row])%list) w
      = (Ok (rows ++ new)%list, w)
      /\ map row_facts new = map service_facts services
      /\ Forall (fun r => cluster r = cluster_name) new.
Proof.
  intros Hcw. induction services as [|svc services IH]; intros rows; simpl.
  - exists []. rewrite List.app_nil_r. repeat split. constructor.
  - unfold bind at 1. unfold bind at 1.
    destruct (service_row_run ecs cw profile region_name cluster_name
                start end_ args svc w Hcw) as (row & -> & Hfacts & Hcluster).
    unfold ret at 1.
    destruct (IH (rows ++ [row])%list) as (new & -> & Hmap & Hall).
    exists (row :: new). rewrite <- List.app_assoc. simpl.
    split; [reflexivity|]. split; [now rewrite Hfacts, Hmap|].
    now constructor.
Qed.

(** X22: when the services of a cluster are listed and described and the
    CloudWatch client fails only with its own error classes, the cluster
    adds exactly one row per described service, in the order of the
    descriptions, after the rows collected before; each new row bears the
    name of the cluster and the name, task definition, capacity providers
    and desired, running and pending counts of its service, a missing entry
    counting as the empty text or as zero; nothing is written. *)
Theorem cluster_rows_one_per_service `{PyRuntime} (ecs : EcsClient)
    (cw : CloudWatchClient) (profile region_name : string) (start end_ : Z)
    (args : Args.t) (rows : list ServiceRow) (c_arn : string) (w : World)
    (pages : list (option (list string))) (services : list ServiceDesc) :
  paginate_list_services ecs c_arn = Ok pages ->
  describe_services ecs c_arn (extend_pages pages) w = (Ok services, w) ->
  well_behaved cw ->
  exists new : list ServiceRow,
    cluster_rows ecs cw profile region_name start end_ args rows c_arn w
    = (Ok (rows ++ new)%list, w)
    /\ map row_facts new = map service_facts services
    /\ Forall (fun r => cluster r = arn_to_name c_arn) new.
Proof.
  intros Hlist Hdesc Hcw.
  unfold cluster_rows, list_services_in_cluster, bind, try_except, lift.
  rewrite Hlist. simpl. unfold ret at 1 2.
  destruct (extend_pages pages) as [|arn arns] eqn:E.
  - unfold describe_services, chunks in Hdesc. simpl in Hdesc.
    injection Hdesc as <-. exists []. rewrite List.app_nil_r.
    repeat split. constructor.
  - rewrite Hdesc.
    destruct (service_loop_run ecs cw profile region_name (arn_to_name c_arn)
                start end_ args w Hcw services rows) as (new & Hrun & Hrest).
    exists new. split; [|exact Hrest].
    unfold bind in Hrun. exact Hrun.
Qed.

Lemma cluster_rows_one_per_service_witness :
  exists new : list ServiceRow,
    @cluster_rows sample_runtime two_cluster_ecs silent_cw "company-dev"
      "us-east-1" 0 86400000000 sample_args sample_rows sample_cluster_arn
      empty_world
    = (Ok (sample_rows ++ new)%list, empty_world)
    /\ map service new = ["svc"]
    /\ Forall (fun r => cluster r = "api") new.
Proof.
  destruct (@cluster_rows_one_per_service sample_runtime two_cluster_ecs
              silent_cw "company-dev" "us-east-1" 0 86400000000 sample_args
              sample_rows sample_cluster_arn empty_world _ _
              eq_refl eq_refl silent_cw_well_behaved)
    as (new & Hrun & Hfacts & Hcluster).
  exists new. split; [exact Hrun|]. split; [|exact Hcluster].
  destruct new as [|r [|r' new]]; try discriminate Hfacts.
  cbv [map row_facts] in Hfacts. vm_compute in Hfacts.
  injection Hfacts as Hservice _ _ _ _ _. simpl. f_equal. exact Hservice.
Defined.

(** ** Window of the run *)


